(** * Test-data generator of the Anselus server (utils/psql_testdata.py)

    A shallow embedding of the account generator, the schema resetter and
    the persistence writer, and the properties of the provisioning
    bootstrap proved about them.

    Python values are modelled as the interpreter has them: a [str] is the
    list of its Unicode code points, a [bytes] the list of its octets, an
    [int] is a [Z].  The operating system's entropy is a tape of cells
    read left to right; the PostgreSQL session behind the psycopg2
    connection is a small transactional engine that runs the SQL text the
    script sends. *)

From stdpp Require Import base numbers option list strings gmap pretty.
From Stdlib Require Import ZArith Lia.

Local Open Scope Z_scope.

(** ** Python strings and bytes *)

(** A source literal, as the list of its code points. *)
Definition lit (s : string) : list Z :=
  (λ c, Z.of_nat (Ascii.nat_of_ascii c)) <$> String.list_ascii_of_string s.

(** [sep.join(parts)] with the empty separator. *)
Definition join (parts : list (list Z)) : list Z := concat parts.

(** [str(n)] of a non-negative integer. *)
Definition str_of_nat (n : nat) : list Z := lit (pretty n).

(** One code point in UTF-8; lone surrogates and values outside the code
    space cannot be encoded. *)
Definition utf8_char (c : Z) : option (list Z) :=
  if c <? 0 then None
  else if c <? 0x80 then Some [c]
  else if c <? 0x800 then Some [0xC0 + c / 64; 0x80 + c mod 64]
  else if c <? 0x10000 then
    if (0xD800 <=? c) && (c <=? 0xDFFF) then None
    else Some [0xE0 + c / 4096; 0x80 + (c / 64) mod 64; 0x80 + c mod 64]
  else if c <? 0x110000 then
    Some [0xF0 + c / 262144; 0x80 + (c / 4096) mod 64;
          0x80 + (c / 64) mod 64; 0x80 + c mod 64]
  else None.

(** [bytes(s, 'utf8')]; [None] stands for UnicodeEncodeError. *)
Definition utf8_encode (s : list Z) : option (list Z) :=
  join <$> mapM utf8_char s.

(** *** base64.b85encode *)

Definition b85alphabet : list Z :=
  lit "0123456789ABCDEFGHIJKLMNOPQRSTUVWXYZabcdefghijklmnopqrstuvwxyz!#$%&()*+-;<=>?@^_`{|}~".

Definition b85char (d : Z) : Z := default 0 (b85alphabet !! Z.to_nat d).

(** The five digits of one big-endian 32-bit word. *)
Definition b85word (b0 b1 b2 b3 : Z) : list Z :=
  let word := ((b0 * 256 + b1) * 256 + b2) * 256 + b3 in
  [ b85char (word / 52200625); b85char (word / 614125 mod 85);
    b85char (word / 7225 mod 85); b85char (word / 85 mod 85);
    b85char (word mod 85) ].

(** The input is padded with zero bytes to a multiple of four and as many
    characters are cut from the last chunk. *)
Fixpoint b85encode (b : list Z) : list Z :=
  match b with
  | [] => []
  | [b0] => take 2 (b85word b0 0 0 0)
  | [b0; b1] => take 3 (b85word b0 b1 0 0)
  | [b0; b1; b2] => take 4 (b85word b0 b1 b2 0)
  | b0 :: b1 :: b2 :: b3 :: rest => b85word b0 b1 b2 b3 ++ b85encode rest
  end.

(** *** uuid.UUID *)

(** [int.from_bytes(b, 'big')]. *)
Definition int_from_bytes (b : list Z) : Z :=
  foldl (λ acc x, acc * 256 + x) 0 b.

(** [UUID(bytes=b, version=4)]: the variant and version bits are forced. *)
Definition UUID_version4 (b : list Z) : Z :=
  let int := int_from_bytes b in
  let int := Z.land int (Z.lnot (Z.shiftl 0xc000 48)) in
  let int := Z.lor int (Z.shiftl 0x8000 48) in
  let int := Z.land int (Z.lnot (Z.shiftl 0xf000 64)) in
  Z.lor int (Z.shiftl 4 76).

Definition hexchars : list Z := lit "0123456789abcdef".

Definition hexchar (d : Z) : Z := default 0 (hexchars !! Z.to_nat d).

(** ['%0nx' % v] for [0 <= v < 16^n]. *)
Fixpoint hex_digits (n : nat) (v : Z) : list Z :=
  match n with
  | O => []
  | S n' => hex_digits n' (v / 16) ++ [hexchar (v mod 16)]
  end.

(** [UUID.__str__]: the 32 hex digits in groups of 8-4-4-4-12. *)
Definition UUID_str (int : Z) : list Z :=
  let hex := hex_digits 32 int in
  join [ take 8 hex; lit "-"; take 4 (drop 8 hex); lit "-";
         take 4 (drop 12 hex); lit "-"; take 4 (drop 16 hex); lit "-";
         drop 20 hex ].

(** The textual form 8-4-4-4-12 of lower-case hex digits. *)
Definition is_hex (c : Z) : bool := bool_decide (c ∈ hexchars).

Definition is_uuid_form (s : list Z) : bool :=
  bool_decide (length s = 36%nat)
  && forallb (λ '(i, c), if bool_decide (i ∈ [8; 13; 18; 23]%nat)
                         then bool_decide (c = 45) else is_hex c)
             (imap (λ i c, (i, c)) s).

(** ** The PostgreSQL session

    The script talks to the server in SQL text.  The engine below reads
    the three kinds of command the script sends -- the [DO] block that
    drops every table, [CREATE TABLE] and [INSERT INTO ... VALUES] -- the
    way the server's lexer does (single-quoted and dollar-quoted string
    constants, case-folded words) and rejects everything else as a syntax
    error.  The SERIAL counter of a table is kept with the table. *)

Inductive token :=
| TWord (w : list Z)
| TString (s : list Z)
| TLParen
| TRParen
| TComma
| TSemi.

Inductive lex_state :=
| LTop
| LWord (acc : list Z)
| LQuote (acc : list Z)
| LQuoteEnd (acc : list Z)
| LDollarOpen
| LDollar (acc : list Z)
| LDollarEnd (acc : list Z).

Definition is_space (c : Z) : bool := bool_decide (c ∈ [32; 9; 10; 13]).

Definition is_word_char (c : Z) : bool :=
  ((48 <=? c) && (c <=? 57)) || ((65 <=? c) && (c <=? 90))
  || ((97 <=? c) && (c <=? 122)) || (c =? 95).

Definition fold_case (c : Z) : Z :=
  if (65 <=? c) && (c <=? 90) then c + 32 else c.

(** A character met outside any word or string. *)
Definition lex_top (c : Z) : option (lex_state * list token) :=
  if is_space c then Some (LTop, [])
  else if c =? 40 then Some (LTop, [TLParen])
  else if c =? 41 then Some (LTop, [TRParen])
  else if c =? 44 then Some (LTop, [TComma])
  else if c =? 59 then Some (LTop, [TSemi])
  else if c =? 39 then Some (LQuote [], [])
  else if c =? 36 then Some (LDollarOpen, [])
  else if is_word_char c then Some (LWord [fold_case c], [])
  else None.

Definition lex_step (st : lex_state) (c : Z) : option (lex_state * list token) :=
  match st with
  | LTop => lex_top c
  | LWord acc =>
      if is_word_char c then Some (LWord (acc ++ [fold_case c]), [])
      else '(st', ts) ← lex_top c; Some (st', TWord acc :: ts)
  | LQuote acc =>
      if c =? 39 then Some (LQuoteEnd acc, []) else Some (LQuote (acc ++ [c]), [])
  | LQuoteEnd acc =>
      if c =? 39 then Some (LQuote (acc ++ [39]), [])
      else '(st', ts) ← lex_top c; Some (st', TString acc :: ts)
  | LDollarOpen =>
      if c =? 36 then Some (LDollar [], []) else None
  | LDollar acc =>
      if c =? 36 then Some (LDollarEnd acc, []) else Some (LDollar (acc ++ [c]), [])
  | LDollarEnd acc =>
      if c =? 36 then Some (LTop, [TString acc])
      else Some (LDollar (acc ++ [36; c]), [])
  end.

Fixpoint lex_from (st : lex_state) (cs : list Z) : option (list token) :=
  match cs with
  | [] =>
      match st with
      | LTop => Some []
      | LWord acc => Some [TWord acc]
      | LQuoteEnd acc => Some [TString acc]
      | _ => None
      end
  | c :: cs' =>
      '(st', ts) ← lex_step st c;
      rest ← lex_from st' cs';
      Some (ts ++ rest)
  end.

Definition lex (cmd : list Z) : option (list token) := lex_from LTop cmd.

Inductive coltype := Serial | Char (n : nat) | Varchar (n : nat).

Record column := Column {
  col_name : list Z;
  col_type : coltype;
  col_not_null : bool
}.

Inductive stmt :=
| DropAllTables
| CreateTable (name : list Z) (cols : list column)
| InsertInto (name : list Z) (cols : list (list Z)) (vals : list (list Z)).

Definition kw (s : string) (w : list Z) : bool := bool_decide (w = lit s).

Definition decimal (w : list Z) : option nat :=
  if forallb (λ c, (48 <=? c) && (c <=? 57)) w && negb (bool_decide (w = []))
  then Some (foldl (λ acc c, acc * 10 + Z.to_nat (c - 48))%nat 0%nat w)
  else None.

Fixpoint split_commas (ts : list token) : list (list token) :=
  match ts with
  | [] => [[]]
  | TComma :: rest => [] :: split_commas rest
  | t :: rest =>
      match split_commas rest with
      | g :: gs => (t :: g) :: gs
      | [] => [[t]]
      end
  end.

(** The tokens up to the first closing parenthesis, and those after it. *)
Fixpoint until_rparen (ts : list token) : option (list token * list token) :=
  match ts with
  | [] => None
  | TRParen :: rest => Some ([], rest)
  | t :: rest => '(g, r) ← until_rparen rest; Some (t :: g, r)
  end.

(** The tokens before a final [");"]. *)
Definition before_close (ts : list token) : option (list token) :=
  match reverse ts with
  | TSemi :: TRParen :: body => Some (reverse body)
  | _ => None
  end.

Definition sized_type (t sz : list Z) : option coltype :=
  n ← decimal sz;
  if kw "char" t then Some (Char n)
  else if kw "varchar" t then Some (Varchar n)
  else None.

Definition parse_coldef (ts : list token) : option column :=
  match ts with
  | [TWord n; TWord t; TWord p; TWord k] =>
      if kw "serial" t && kw "primary" p && kw "key" k
      then Some (Column n Serial true) else None
  | [TWord n; TWord t; TLParen; TWord sz; TRParen] =>
      ty ← sized_type t sz; Some (Column n ty false)
  | [TWord n; TWord t; TLParen; TWord sz; TRParen; TWord a] =>
      ty ← sized_type t sz;
      if kw "null" a then Some (Column n ty false) else None
  | [TWord n; TWord t; TLParen; TWord sz; TRParen; TWord a; TWord b] =>
      ty ← sized_type t sz;
      if kw "not" a && kw "null" b then Some (Column n ty true) else None
  | _ => None
  end.

Definition as_word (ts : list token) : option (list Z) :=
  match ts with [TWord w] => Some w | _ => None end.

Definition as_string (ts : list token) : option (list Z) :=
  match ts with [TString s] => Some s | _ => None end.

Definition nl : list Z := [10].
Definition tab : list Z := [9].

(** The body of the [DO] block of [reset_database], between its [$$]. *)
Definition drop_all_body : list Z :=
  join [ lit " DECLARE"; nl;
         tab; tab; lit "r RECORD;"; nl;
         tab; lit "BEGIN"; nl;
         tab; tab; lit "FOR r IN (SELECT tablename FROM pg_tables WHERE schemaname = current_schema()) LOOP"; nl;
         tab; tab; tab; lit "EXECUTE 'DROP TABLE IF EXISTS ' || quote_ident(r.tablename) || ' CASCADE';"; nl;
         tab; tab; lit "END LOOP;"; nl;
         tab; lit "END " ].

Definition parse (ts : list token) : option stmt :=
  match ts with
  | [TWord d; TString body; TSemi] =>
      if kw "do" d && bool_decide (body = drop_all_body)
      then Some DropAllTables else None
  | TWord a :: TWord b :: TWord name :: TLParen :: rest =>
      if kw "create" a && kw "table" b then
        body ← before_close rest;
        cols ← mapM parse_coldef (split_commas body);
        Some (CreateTable name cols)
      else if kw "insert" a && kw "into" b then
        '(colts, rest') ← until_rparen rest;
        match rest' with
        | TWord v :: TLParen :: rest'' =>
            if kw "values" v then
              body ← before_close rest'';
              cols ← mapM as_word (split_commas colts);
              vals ← mapM as_string (split_commas body);
              Some (InsertInto name cols vals)
            else None
        | _ => None
        end
      else None
  | _ => None
  end.

Inductive value := VInt (n : Z) | VText (s : list Z) | VNull.

Record table := Table {
  tbl_columns : list column;
  tbl_rows : list (list value);
  tbl_serial : Z
}.

Abbreviation database := (gmap (list Z) table).

Inductive db_error :=
| SyntaxError
| UndefinedTable (name : list Z)
| DuplicateTable (name : list Z)
| UndefinedColumn (name : list Z)
| StringDataRightTruncation (column : list Z)
| NotNullViolation (column : list Z)
| InvalidTextRepresentation (column : list Z)
| InFailedSqlTransaction.

(** The value stored in column [c] for one INSERT, given the target list
    zipped with the supplied constants.  A [char(n)] value is padded with
    blanks; a value longer than the declared size is an error. *)
Definition store_column (serial : Z) (given : list (list Z * list Z)) (c : column)
  : db_error + value :=
  match (list_to_map given : gmap (list Z) (list Z)) !! col_name c with
  | Some s =>
      match col_type c with
      | Serial => inl (InvalidTextRepresentation (col_name c))
      | Char n =>
          if bool_decide (length s ≤ n)%nat
          then inr (VText (s ++ replicate (n - length s) 32))
          else inl (StringDataRightTruncation (col_name c))
      | Varchar n =>
          if bool_decide (length s ≤ n)%nat then inr (VText s)
          else inl (StringDataRightTruncation (col_name c))
      end
  | None =>
      match col_type c with
      | Serial => inr (VInt serial)
      | _ => if col_not_null c then inl (NotNullViolation (col_name c)) else inr VNull
      end
  end.

Fixpoint store_row (serial : Z) (given : list (list Z * list Z)) (cs : list column)
  : db_error + list value :=
  match cs with
  | [] => inr []
  | c :: cs' =>
      match store_column serial given c with
      | inl e => inl e
      | inr v =>
          match store_row serial given cs' with
          | inl e => inl e
          | inr vs => inr (v :: vs)
          end
      end
  end.

Definition run_stmt (s : stmt) (d : database) : db_error + database :=
  match s with
  | DropAllTables => inr ∅
  | CreateTable name cols =>
      match d !! name with
      | Some _ => inl (DuplicateTable name)
      | None => inr (<[name := Table cols [] 1]> d)
      end
  | InsertInto name cols vals =>
      match d !! name with
      | None => inl (UndefinedTable name)
      | Some t =>
          if negb (bool_decide (length cols = length vals)) then inl SyntaxError
          else
            match list_find (λ c, c ∉ col_name <$> tbl_columns t) cols with
            | Some (_, c) => inl (UndefinedColumn c)
            | None =>
                match store_row (tbl_serial t) (zip cols vals) (tbl_columns t) with
                | inl e => inl e
                | inr row =>
                    inr (<[name := Table (tbl_columns t) (tbl_rows t ++ [row])
                                         (tbl_serial t + 1)]> d)
                end
            end
      end
  end.

(** One command, run on the tables the session currently sees. *)
Definition pg_execute (cmd : list Z) (d : database) : db_error + database :=
  match lex cmd ≫= parse with
  | None => inl SyntaxError
  | Some s => run_stmt s d
  end.

(** A psycopg2 connection: what is committed, and the transaction that
    the first [execute] opens implicitly.  After a failed command the
    transaction is aborted and refuses further commands until it ends. *)
Inductive txn := Idle | Active (working : database) | Aborted.

Record connection := Connection {
  committed : database;
  txn_state : txn
}.

(** The tables the next command of the session sees. *)
Definition working (c : connection) : database :=
  match txn_state c with
  | Active d => d
  | _ => committed c
  end.

(** ** The interpreter state and Python's exceptions

    A computation reads the entropy tape at [pos], talks to the database
    connection and prints to standard output; it ends with a value or
    with a raised exception, and keeps the state it reached either way. *)

Inductive exn :=
| IndexError
| KeyError (key : string)
| ValueError
| UnicodeEncodeError
| DatabaseError (e : db_error).

Record world := World {
  tape : nat → Z;
  pos : nat;
  db : connection;
  stdout : list (list Z)
}.

Definition py (A : Type) : Type := world → (exn + A) * world.

Definition ret {A} (a : A) : py A := λ w, (inr a, w).

Definition raise {A} (e : exn) : py A := λ w, (inl e, w).

Definition bind {A B} (m : py A) (k : A → py B) : py B :=
  λ w, match m w with
       | (inr a, w') => k a w'
       | (inl e, w') => (inl e, w')
       end.

#[global] Instance py_ret : MRet py := @ret.
#[global] Instance py_bind : MBind py := λ A B k m, bind m k.

(** [for x in l: body(x)]. *)
Fixpoint for_each {A} (l : list A) (body : A → py unit) : py unit :=
  match l with
  | [] => mret ()
  | x :: l' => body x;; for_each l' body
  end.

(** [n] successive runs of [m], collected. *)
Fixpoint repeatM {A} (n : nat) (m : py A) : py (list A) :=
  match n with
  | O => mret []
  | S n' => x ← m; xs ← repeatM n' m; mret (x :: xs)
  end.

(** [m] run in [w] returns (raises nothing) and [Q] holds of its value
    and final state. *)
Definition returns {A} (m : py A) (w : world) (Q : A → world → Prop) : Prop :=
  match m w with
  | (inr a, w') => Q a w'
  | (inl _, _) => False
  end.

(** ** The system's random source *)

Definition skip (n : nat) (w : world) : world :=
  World (tape w) (pos w + n) (db w) (stdout w).

(** The [n] cells of a tape from position [p] on, each reduced to
    [range(m)]. *)
Definition draws (t : nat → Z) (p n : nat) (m : Z) : list Z :=
  (λ i, t (p + i)%nat `mod` m) <$> seq 0 n.

(** [os.urandom(n)]: the next [n] cells, as octets. *)
Definition os_urandom (n : nat) : py (list Z) :=
  λ w, (inr (draws (tape w) (pos w) n 256), skip n w).

(** [SystemRandom._randbelow(n)]: one cell, reduced to [range(n)]. *)
Definition randbelow (n : Z) : py Z :=
  λ w, (inr (tape w (pos w) `mod` n), skip 1 w).

(** [SystemRandom.randrange(start, stop)]. *)
Definition randrange (start stop : Z) : py Z :=
  if stop - start <=? 0 then raise ValueError
  else r ← randbelow (stop - start); mret (start + r).

(** [SystemRandom.randint(a, b)]. *)
Definition randint (a b : Z) : py Z := randrange a (b + 1).

(** [SystemRandom.choice(seq)], also [secrets.choice(seq)]. *)
Definition choice {A} (seq : list A) : py A :=
  if bool_decide (length seq = 0%nat) then raise IndexError
  else i ← randbelow (Z.of_nat (length seq));
       match seq !! Z.to_nat i with
       | Some x => mret x
       | None => raise IndexError
       end.

(** [str(uuid.uuid4())]. *)
Definition str_uuid4 : py (list Z) :=
  b ← os_urandom 16; mret (UUID_str (UUID_version4 b)).

(** ** generate_unid *)

(** [range(a, b)]. *)
Definition range (a b : Z) : list Z :=
  (λ i, a + Z.of_nat i) <$> seq 0 (Z.to_nat (b - a)).

Definition include_ranges : list (Z * Z) :=
  [ (0x0021, 0x007E); (* Basic Latin *)
    (0x00A1, 0x00AC); (* Latin-1 Supplement *)
    (0x00AE, 0x00FF); (* Latin-1 Supplement *)
    (0x0100, 0x017F); (* Latin Extended-A *)
    (0x0180, 0x024F); (* Latin Extended-B *)
    (0x0250, 0x02AF); (* International Phonetic Alphabet *)
    (0x0370, 0x0377); (* Greek and Coptic *)
    (0x037A, 0x037E); (* Greek and Coptic *)
    (0x0384, 0x038A); (* Greek and Coptic *)
    (0x038C, 0x038C); (* Greek and Coptic *)
    (0x038E, 0x03FF); (* Greek and Coptic *)
    (0x0400, 0x04FF); (* Cyrillic *)
    (0x0500, 0x052F); (* Cyrillic Supplement *)
    (0x0600, 0x06FF); (* Arabic *)
    (0x0750, 0x077F); (* Arabic Supplement *)
    (0x16A0, 0x16F0); (* Runic *)
    (0x1E00, 0x1EFF); (* Latin Extended Additional *)
    (0x2600, 0x26FF); (* Misc. Symbols *)
    (0x2700, 0x27BF); (* Block Dingbats *)
    (0x2C60, 0x2C7F); (* Latin Extended-C *)
    (0xA720, 0xA7AD)  (* Latin Extended-D *) ].

(** [chr]: the one-character string of a code point. *)
Definition get_char (code_point : Z) : Z := code_point.

Definition charlist : list Z :=
  current_range ← include_ranges;
  code_point ← range current_range.1 (current_range.2 + 1);
  [get_char code_point].

Definition generate_unid (length : Z) : py (list Z) :=
  let length := if length <? 50 then 50 else length in
  chars ← repeatM (Z.to_nat length) (choice charlist);
  mret (join ((λ c, [c]) <$> chars)).

(** ** PyNaCl and diceware

    The cryptographic primitives of libsodium and the word-list passphrase
    generator are collaborators of the script; they are taken as
    interfaces.  What the PyNaCl wrappers check and compose around the
    primitives is written out. *)

Class Sodium := {
  (** the Curve25519 public key of a private key *)
  crypto_scalarmult_base : list Z → list Z;
  (** octet [i] of the Argon2id tag of [outlen] octets *)
  crypto_pwhash_argon2id : nat → list Z → list Z → Z → Z → nat → Z;
  (** XSalsa20-Poly1305 of a message under a nonce and a key *)
  crypto_secretbox : list Z → list Z → list Z → list Z
}.

Record diceware_options := DicewareOptions {
  opt_num : Z;
  opt_caps : bool;
  opt_specials : Z;
  opt_delimiter : list Z;
  opt_randomsource : list Z;
  opt_wordlist : list Z;
  opt_infile : option (list Z)
}.

Class Diceware := {
  (** the passphrase read off the entropy tape from a position on, and
      the number of cells it used *)
  get_passphrase : diceware_options → (nat → Z) → nat → string * nat
}.

(** nacl.pwhash.argon2id.SALTBYTES *)
Definition SALTBYTES : nat := 16.
(** nacl.secret.SecretBox.KEY_SIZE and NONCE_SIZE *)
Definition KEY_SIZE : nat := 32.
Definition NONCE_SIZE : nat := 24.
(** nacl.public.PrivateKey.SIZE *)
Definition PRIVATE_KEY_SIZE : nat := 32.
(** nacl.pwhash.argon2id cost limits *)
Definition OPSLIMIT_INTERACTIVE : Z := 2.
Definition MEMLIMIT_INTERACTIVE : Z := 67108864.
Definition OPSLIMIT_MIN : Z := 1.
Definition OPSLIMIT_MAX : Z := 4294967295.
Definition MEMLIMIT_MIN : Z := 8192.
Definition MEMLIMIT_MAX : Z := 4398046510080.
Definition BYTES_MIN : nat := 16.

(** [nacl.utils.random(size)]. *)
Definition nacl_utils_random (size : nat) : py (list Z) := os_urandom size.

(** [bytes(s, 'utf8')]. *)
Definition bytes_utf8 (s : list Z) : py (list Z) :=
  match utf8_encode s with
  | Some b => mret b
  | None => raise UnicodeEncodeError
  end.

Record PrivateKey := MkPrivateKey {
  private_bytes : list Z;
  public_bytes : list Z
}.

Record SecretBox := MkSecretBox { box_key : list Z }.

Section Program.
Context `{Sodium} `{Diceware}.

(** [nacl.pwhash.argon2id.kdf(size, password, salt, opslimit, memlimit)]:
    the salt must have the mandated length and the costs must lie within
    the library's limits; the tag then has [size] octets. *)
Definition argon2id_kdf (size : nat) (password salt : list Z)
    (opslimit memlimit : Z) : py (list Z) :=
  if negb (bool_decide (length salt = SALTBYTES)) then raise ValueError
  else if negb ((OPSLIMIT_MIN <=? opslimit) && (opslimit <=? OPSLIMIT_MAX)
                && (MEMLIMIT_MIN <=? memlimit) && (memlimit <=? MEMLIMIT_MAX))
  then raise ValueError
  else if negb (bool_decide (BYTES_MIN ≤ size)%nat) then raise ValueError
  else mret (crypto_pwhash_argon2id size password salt opslimit memlimit
               <$> seq 0 size).

(** [nacl.public.PrivateKey.generate()]. *)
Definition PrivateKey_generate : py PrivateKey :=
  sk ← nacl_utils_random PRIVATE_KEY_SIZE;
  mret (MkPrivateKey sk (crypto_scalarmult_base sk)).

(** [nacl.secret.SecretBox(key)]. *)
Definition SecretBox_new (key : list Z) : py SecretBox :=
  if bool_decide (length key = KEY_SIZE) then mret (MkSecretBox key)
  else raise ValueError.

(** [box.encrypt(plaintext)]: a fresh random nonce, then the nonce
    followed by the ciphertext. *)
Definition SecretBox_encrypt (box : SecretBox) (plaintext : list Z) : py (list Z) :=
  nonce ← nacl_utils_random NONCE_SIZE;
  mret (nonce ++ crypto_secretbox plaintext nonce (box_key box)).

Definition diceware_get_passphrase (options : diceware_options) : py (list Z) :=
  λ w, let '(phrase, used) := get_passphrase options (tape w) (pos w) in
       (inr (lit phrase), skip used w).

(** ** The account record *)

(** A key record is a dict of one of two shapes. *)
Inductive key :=
| Keypair (type purpose id public_key private_key public_b85 private_b85 : list Z)
| Secret (type purpose id key key_b85 : list Z).

Definition key_purpose (k : key) : list Z :=
  match k with
  | Keypair _ p _ _ _ _ _ => p
  | Secret _ p _ _ _ => p
  end.

Definition key_id (k : key) : list Z :=
  match k with
  | Keypair _ _ i _ _ _ _ => i
  | Secret _ _ i _ _ => i
  end.

(** [k['key']], [k['key_b85']], [k['public_b85']], [k['private_b85']]. *)
Definition get_key (k : key) : py (list Z) :=
  match k with
  | Secret _ _ _ b _ => mret b
  | _ => raise (KeyError "key")
  end.

Definition get_key_b85 (k : key) : py (list Z) :=
  match k with
  | Secret _ _ _ _ b => mret b
  | _ => raise (KeyError "key_b85")
  end.

Definition get_public_b85 (k : key) : py (list Z) :=
  match k with
  | Keypair _ _ _ _ _ b _ => mret b
  | _ => raise (KeyError "public_b85")
  end.

Definition get_private_b85 (k : key) : py (list Z) :=
  match k with
  | Keypair _ _ _ _ _ _ b => mret b
  | _ => raise (KeyError "private_b85")
  end.

Record device := Device {
  dev_id : list Z;
  dev_key : key
}.

Record account := Account {
  wid : list Z;
  friendly_address : list Z;
  password : list Z;
  pwsalt : list Z;
  pwsalt_b85 : list Z;
  pwhash : list Z;
  pwhash_b85 : list Z;
  status : list Z;
  keys : list key;
  folder_map : list (list Z * list Z);
  devices : list device
}.

(** [l[i]]. *)
Definition index {A} (l : list A) (i : nat) : py A :=
  match l !! i with
  | Some x => mret x
  | None => raise IndexError
  end.

(** [d[k]] of a dict kept in insertion order. *)
Definition dict_get (d : list (list Z * list Z)) (k : string) : py (list Z) :=
  match list_find (λ kv, kv.1 = lit k) d with
  | Some (_, kv) => mret kv.2
  | None => raise (KeyError k)
  end.

(** [d[k] = v]. *)
Fixpoint dict_set (d : list (list Z * list Z)) (k v : list Z) : list (list Z * list Z) :=
  match d with
  | [] => [(k, v)]
  | kv :: d' => if bool_decide (kv.1 = k) then (k, v) :: d' else kv :: dict_set d' k v
  end.

(** ** generate_password and generate_account *)

Definition generate_password : py (list Z) :=
  diceware_get_passphrase
    (DicewareOptions 3 true 0 (lit "") (lit "system") (lit "en_eff") None).

Definition first_names : list (list Z) :=
  lit <$> [ "Leanne"; "Lauryn"; "Cheryl"; "Addie"; "Lynnette"; "Meredith"; "Jay"; "Bernie";
            "Kenneth"; "Harding"; "Elissa"; "Beth"; "Vance"; "Holden"; "Careen"; "Jackie";
            "Laurence"; "Grover"; "Megan"; "Daniel"; "Shelby"; "Desmond"; "Jason"; "Patton";
            "Harvey"; "Dylan"; "Eleanor"; "Grace"; "Randall"; "Carmen"; "Lewis" ]%string.

Definition last_names : list (list Z) :=
  lit <$> [ "Rennoll"; "Layton"; "Page"; "Steffen"; "Wilbur"; "Clifford"; "Ridge"; "Norton";
            "Haden"; "Smith"; "Harris"; "Bush"; "Addison"; "Warren"; "Armstrong"; "Radcliff";
            "Stern"; "Jernigan"; "Tucker"; "Blackwood"; "Gray"; "Eaton"; "Bissette"; "Albert";
            "Rogers"; "Tyrrell"; "Randall"; "Ramsey"; "Parish"; "Towner"; "Granville" ]%string.

(** An asymmetric key record of the given purpose around a generated key. *)
Definition keypair_record (purpose : string) (id : list Z) (k : PrivateKey) : key :=
  Keypair (lit "ed25519") (lit purpose) id (public_bytes k) (private_bytes k)
          (b85encode (public_bytes k)) (b85encode (private_bytes k)).

Definition secret_record (purpose : string) (id : list Z) (k : list Z) : key :=
  Secret (lit "aes256") (lit purpose) id k (b85encode k).

(** The [while i < dev_count] loop, by the iterations left. *)
Fixpoint device_loop (left : nat) (devices : list device) : py (list device) :=
  match left with
  | O => mret devices
  | S left' =>
      devkey ← PrivateKey_generate;
      id ← str_uuid4;
      kid ← generate_unid 50;
      device_loop left' (devices ++ [Device id (keypair_record "identity" kid devkey)])
  end.

Definition generate_account : py account :=
  wid ← str_uuid4;
  r ← randint 1 100;
  friendly_address ←
    (if r <? 51 then
       first ← choice first_names;
       last ← choice last_names;
       mret (join [first; lit " "; last; lit "/example.com"])
     else mret (lit ""));
  password ← generate_password;
  salt ← nacl_utils_random SALTBYTES;
  let pwsalt_b85 := b85encode salt in
  pwbytes ← bytes_utf8 password;
  pwhash ← argon2id_kdf KEY_SIZE pwbytes salt OPSLIMIT_INTERACTIVE MEMLIMIT_INTERACTIVE;
  let pwhash_b85 := b85encode pwhash in
  r ← randint 1 100;
  let status := if r <? 76 then lit "active" else lit "disabled" in
  identity ← PrivateKey_generate;
  contact_request ← PrivateKey_generate;
  firstdevice ← PrivateKey_generate;
  broadcast_aes ← nacl_utils_random KEY_SIZE;
  system_aes ← nacl_utils_random KEY_SIZE;
  folder_aes ← nacl_utils_random KEY_SIZE;
  id0 ← generate_unid 50;
  id1 ← generate_unid 50;
  id2 ← generate_unid 50;
  id3 ← generate_unid 50;
  id4 ← generate_unid 50;
  id5 ← generate_unid 50;
  let keys :=
    [ keypair_record "identity" id0 identity;
      keypair_record "contact_request" id1 contact_request;
      keypair_record "firstdevice" id2 firstdevice;
      secret_record "broadcast" id3 broadcast_aes;
      secret_record "system" id4 system_aes;
      secret_record "folder" id5 folder_aes ] in
  messages ← str_uuid4;
  contacts ← str_uuid4;
  calendar ← str_uuid4;
  tasks ← str_uuid4;
  files ← str_uuid4;
  attachments ← str_uuid4;
  social ← str_uuid4;
  let folder_map :=
    [ (lit "Messages", messages); (lit "Contacts", contacts);
      (lit "Calendar", calendar); (lit "Tasks", tasks); (lit "Files", files);
      (lit "Files Attachments", attachments); (lit "Social", social) ] in
  dev_count ← randrange 1 6;
  devices ← device_loop (Z.to_nat (dev_count - 0)) [];
  mret (Account wid friendly_address password salt pwsalt_b85 pwhash pwhash_b85
                status keys folder_map devices).

(** ** The database cursor *)

Definition set_db (c : connection) (w : world) : world :=
  World (tape w) (pos w) c (stdout w).

(** [dbconn.cursor()] and [cursor.close()] leave the session as it is. *)
Definition dbconn_cursor : py unit := mret ().

Definition cursor_close : py unit := mret ().

(** [cursor.execute(cmd)]: the command runs inside the open transaction
    (the first one opens it); a database error is raised to the caller
    and leaves the transaction aborted. *)
Definition cursor_execute (cmd : list Z) : py unit :=
  λ w, match txn_state (db w) with
       | Aborted => (inl (DatabaseError InFailedSqlTransaction), w)
       | _ =>
           match pg_execute cmd (working (db w)) with
           | inr d => (inr (), set_db (Connection (committed (db w)) (Active d)) w)
           | inl e => (inl (DatabaseError e),
                       set_db (Connection (committed (db w)) Aborted) w)
           end
       end.

(** [dbconn.commit()]: what the transaction did becomes visible; an
    aborted transaction ends without effect. *)
Definition dbconn_commit : py unit :=
  λ w, (inr (), set_db (Connection (working (db w)) Idle) w).

(** ** reset_database *)

Definition dropcmd : list Z := join [lit "DO $$"; drop_all_body; lit "$$;"].

Definition create_main : list Z :=
  join [ lit "CREATE TABLE iwkspc_main(id SERIAL PRIMARY KEY, wid char(36) NOT NULL, ";
         lit "friendly_address VARCHAR(48) NULL, password VARCHAR(128) NOT NULL, ";
         lit "status VARCHAR(16) NOT NULL);" ].

Definition create_folders : list Z :=
  join [ lit "CREATE TABLE iwkspc_folders(id SERIAL PRIMARY KEY, fid char(36) NOT NULL, ";
         lit "wid char(36) NOT NULL, enc_name VARCHAR(128) NOT NULL, ";
         lit "enc_key VARCHAR(64) NOT NULL);" ].

Definition create_sessions : list Z :=
  join [ lit "CREATE TABLE iwkspc_sessions(id SERIAL PRIMARY KEY, wid char(36) NOT NULL, ";
         lit "devid char(36) NOT NULL, device_key VARCHAR(128) NOT NULL);" ].

Definition reset_database : py unit :=
  dbconn_cursor;;
  cursor_execute dropcmd;;
  cursor_execute create_main;;
  cursor_execute create_folders;;
  cursor_execute create_sessions;;
  cursor_close;;
  dbconn_commit.

(** ** add_account_to_db *)

(** The text of the INSERT into iwkspc_main, built from [cmdparts]. *)
Definition main_cmd (account : account) : list Z :=
  let cmdparts :=
    [ lit "INSERT INTO iwkspc_main(wid,friendly_address,password,status) VALUES('";
      wid account; lit "'," ] in
  let cmdparts :=
    if bool_decide (0 < length (friendly_address account))%nat
    then cmdparts ++ [lit "'"; friendly_address account; lit "',"]
    else cmdparts ++ [lit "'',"] in
  let cmdparts :=
    cmdparts ++ [lit "$$"; pwhash_b85 account; lit "$$,'"; status account; lit "');"] in
  join cmdparts.

(** The [%]-formatted INSERT into iwkspc_folders. *)
Definition folder_cmd (wid fid enc_name enc_key : list Z) : list Z :=
  join [ lit "INSERT INTO iwkspc_folders(wid, fid, enc_name, enc_key) ";
         lit "VALUES('"; wid; lit "','"; fid; lit "','"; enc_name; lit "',$$";
         enc_key; lit "$$);" ].

(** The [%]-formatted INSERT into iwkspc_sessions. *)
Definition session_cmd (wid devid device_key : list Z) : list Z :=
  join [ lit "INSERT INTO iwkspc_sessions(wid, devid, device_key) ";
         lit "VALUES('"; wid; lit "','"; devid; lit "',$$"; device_key; lit "$$);" ].

Definition add_folder (account : account) (box : SecretBox)
    (item : list Z * list Z) : py unit :=
  let '(folder_name, fid) := item in
  plaintext ← bytes_utf8 folder_name;
  encrypted ← SecretBox_encrypt box plaintext;
  k ← index (keys account) 5;
  cursor_execute (folder_cmd (wid account) fid (b85encode encrypted) (key_id k)).

Definition add_device (account : account) (d : device) : py unit :=
  public_b85 ← get_public_b85 (dev_key d);
  cursor_execute (session_cmd (wid account) (dev_id d) public_b85).

Definition add_account_to_db (account : account) : py unit :=
  dbconn_cursor;;
  cursor_execute (main_cmd account);;
  k ← index (keys account) 5;
  key ← get_key k;
  box ← SecretBox_new key;
  for_each (folder_map account) (add_folder account box);;
  for_each (devices account) (add_device account);;
  cursor_close;;
  dbconn_commit.

(** ** dump_account *)

(** [print(line)]. *)
Definition print (line : list Z) : py unit :=
  λ w, (inr (), World (tape w) (pos w) (db w) (stdout w ++ [line])).

(** The three entries the dump adds for device number [i] (from 0). *)
Definition dump_device (i : nat) (d : device) (out : list (list Z * list Z))
  : py (list (list Z * list Z)) :=
  let out := dict_set out (join [lit "Device #"; str_of_nat (i + 1); lit " ID"]) (dev_id d) in
  public_b85 ← get_public_b85 (dev_key d);
  let out := dict_set out (join [lit "Device #"; str_of_nat (i + 1); lit " Public.b85"])
                      public_b85 in
  private_b85 ← get_private_b85 (dev_key d);
  mret (dict_set out (join [lit "Device #"; str_of_nat (i + 1); lit " Private.b85"])
                 private_b85).

Fixpoint dump_devices (i : nat) (ds : list device) (out : list (list Z * list Z))
  : py (list (list Z * list Z)) :=
  match ds with
  | [] => mret out
  | d :: ds' => out' ← dump_device i d out; dump_devices (S i) ds' out'
  end.

Definition dump_account (account : account) : py unit :=
  k0 ← index (keys account) 0; identity_public ← get_public_b85 k0;
  k0 ← index (keys account) 0; identity_private ← get_private_b85 k0;
  k1 ← index (keys account) 1; contact_public ← get_public_b85 k1;
  k1 ← index (keys account) 1; contact_private ← get_private_b85 k1;
  k2 ← index (keys account) 2; firstdevice_public ← get_public_b85 k2;
  k2 ← index (keys account) 2; firstdevice_private ← get_private_b85 k2;
  k3 ← index (keys account) 3; broadcast ← get_key_b85 k3;
  k4 ← index (keys account) 4; system ← get_key_b85 k4;
  k5 ← index (keys account) 5; folder ← get_key_b85 k5;
  messages ← dict_get (folder_map account) "Messages";
  contacts ← dict_get (folder_map account) "Contacts";
  calendar ← dict_get (folder_map account) "Calendar";
  tasks ← dict_get (folder_map account) "Tasks";
  files ← dict_get (folder_map account) "Files";
  attachments ← dict_get (folder_map account) "Files Attachments";
  social ← dict_get (folder_map account) "Social";
  let out :=
    [ (lit "Workspace ID", wid account);
      (lit "Friendly Address", friendly_address account);
      (lit "Status", status account);
      (lit "Password", password account);
      (lit "Password Salt.b85", pwsalt_b85 account);
      (lit "Password Hash.b85", pwhash_b85 account);
      (lit "Identity Public.b85", identity_public);
      (lit "Identity Private.b85", identity_private);
      (lit "Contact Public.b85", contact_public);
      (lit "Contact Private.b85", contact_private);
      (lit "First Device Public.b85", firstdevice_public);
      (lit "First Device Private.b85", firstdevice_private);
      (lit "Broadcast.b85", broadcast);
      (lit "System.b85", system);
      (lit "Folder Map.b85", folder);
      (lit "Message Folder", messages);
      (lit "Contacts Folder", contacts);
      (lit "Calendar Folder", calendar);
      (lit "Tasks Folder", tasks);
      (lit "Files Folder", files);
      (lit "Attachments Folder", attachments);
      (lit "Social Folder", social) ] in
  out ← dump_devices 0 (devices account) out;
  for_each out (λ kv, print (join [kv.1; lit " : "; kv.2]));;
  print (lit "").

(** ** The script

    Once the connection is made: the tables are reset, then five accounts
    are generated, written and printed, one after the other. *)
Definition script : py unit :=
  reset_database;;
  for_each (range 0 5)
    (λ i, test ← generate_account; add_account_to_db test;; dump_account test).

End Program.

(** * What the program computes, as functions of the tape

    The definitions below name the values the program reads off the
    entropy tape and the commands it sends, so that the theorems can
    speak about them. *)


(** The string [generate_unid] builds from [n] cells of the tape. *)
Definition unid_at (t : nat → Z) (p n : nat) : list Z :=
  (λ c, default 0 (charlist !! Z.to_nat c)) <$> draws t p n (Z.of_nat (length charlist)).

Definition uuid_value (t : nat → Z) (p : nat) : Z := UUID_version4 (draws t p 16 256).

Definition uuid_at (t : nat → Z) (p : nat) : list Z := UUID_str (uuid_value t p).

(** The UTF-8 octets of a string that can be encoded. *)
Definition utf8 (s : list Z) : list Z := default [] (utf8_encode s).

(** The commands of a list run one after the other on the tables a
    transaction sees, up to the first that fails. *)
Fixpoint pg_run (cmds : list (list Z)) (d : database) : db_error + database :=
  match cmds with
  | [] => inr d
  | cmd :: cmds' =>
      match pg_execute cmd d with
      | inr d' => pg_run cmds' d'
      | inl e => inl e
      end
  end.

(** The same on a connection: an aborted transaction refuses the first
    command. *)
Definition conn_run (cmds : list (list Z)) (c : connection) : db_error + database :=
  match txn_state c, cmds with
  | Aborted, _ :: _ => inl InFailedSqlTransaction
  | _, _ => pg_run cmds (working c)
  end.

(** A computation that never changes what is committed. *)
Definition uncommitting {A} (m : py A) : Prop :=
  ∀ w, committed (db (m w).2) = committed (db w).



(** The schema [reset_database] creates. *)
Definition fresh_schema : database :=
  {[ lit "iwkspc_main" :=
       Table [ Column (lit "id") Serial true;
               Column (lit "wid") (Char 36) true;
               Column (lit "friendly_address") (Varchar 48) false;
               Column (lit "password") (Varchar 128) true;
               Column (lit "status") (Varchar 16) true ] [] 1;
     lit "iwkspc_folders" :=
       Table [ Column (lit "id") Serial true;
               Column (lit "fid") (Char 36) true;
               Column (lit "wid") (Char 36) true;
               Column (lit "enc_name") (Varchar 128) true;
               Column (lit "enc_key") (Varchar 64) true ] [] 1;
     lit "iwkspc_sessions" :=
       Table [ Column (lit "id") Serial true;
               Column (lit "wid") (Char 36) true;
               Column (lit "devid") (Char 36) true;
               Column (lit "device_key") (Varchar 128) true ] [] 1 ]}.


(** A world whose entropy tape holds the same cell everywhere. *)
Definition constant_world (c : Z) : world :=
  World (λ _, c) 0 (Connection ∅ Idle) [].

(** A computation that leaves the state as it is, whether it returns or
    raises. *)
Definition quiet {A} (m : py A) : Prop := ∀ w, (m w).2 = w.

(** The line [print("%s : %s" % (k, v))] writes. *)
Definition dump_line (kv : list Z * list Z) : list Z := join [kv.1; lit " : "; kv.2].

(** The lexer run over a part of a command: the state it reaches and the
    tokens it has given out. *)
Fixpoint lex_run (st : lex_state) (cs : list Z) : option (lex_state * list token) :=
  match cs with
  | [] => Some (st, [])
  | c :: cs' =>
      '(st', ts) ← lex_step st c;
      '(st'', ts') ← lex_run st' cs';
      Some (st'', ts ++ ts')
  end.

(** A database whose tables have the columns [reset_database] gives
    them, whatever their rows. *)
Definition has_schema (d : database) : Prop :=
  tbl_columns <$> d = tbl_columns <$> fresh_schema.

(** A [char(n)] value as stored: padded with blanks. *)
Definition pad (n : nat) (s : list Z) : list Z := s ++ replicate (n - length s) 32.

(** One more row in a table, numbered by the table's SERIAL counter. *)
Definition append_row (name : string) (row : Z → list value) (d : database) : database :=
  match d !! lit name with
  | Some t =>
      <[lit name := Table (tbl_columns t) (tbl_rows t ++ [row (tbl_serial t)])
                          (tbl_serial t + 1)]> d
  | None => d
  end.

Definition main_row (a : account) (serial : Z) : list value :=
  [ VInt serial; VText (pad 36 (wid a)); VText (friendly_address a);
    VText (pwhash_b85 a); VText (status a) ].

Definition folder_row (wid fid enc_name enc_key : list Z) (serial : Z) : list value :=
  [ VInt serial; VText (pad 36 fid); VText (pad 36 wid); VText enc_name; VText enc_key ].

Definition session_row (wid devid device_key : list Z) (serial : Z) : list value :=
  [ VInt serial; VText (pad 36 wid); VText (pad 36 devid); VText device_key ].

(** A concrete account, for the theorems that have preconditions.  The
    primitives of the example only have the lengths of the real ones: the
    public key is the private key, the tag counts its octets and the box
    puts sixteen zero octets before the message. *)
Definition example_sodium : Sodium :=
  {| crypto_scalarmult_base := λ private_key, private_key;
     crypto_pwhash_argon2id := λ _ _ _ _ _ i, Z.of_nat i;
     crypto_secretbox := λ message _ _, replicate 16 0 ++ message |}.

Definition example_account : account :=
  {| wid := lit "01010101-0101-4101-8101-010101010101";
     friendly_address := lit "Leanne Page/example.com";
     password := lit "CorrectHorseBattery";
     pwsalt := replicate 16 1;
     pwsalt_b85 := b85encode (replicate 16 1);
     pwhash := replicate 32 2;
     pwhash_b85 := b85encode (replicate 32 2);
     status := lit "active";
     keys :=
       [ keypair_record "identity" (lit "key-0")
           (MkPrivateKey (replicate 32 3) (replicate 32 3));
         keypair_record "contact_request" (lit "key-1")
           (MkPrivateKey (replicate 32 4) (replicate 32 4));
         keypair_record "firstdevice" (lit "key-2")
           (MkPrivateKey (replicate 32 5) (replicate 32 5));
         secret_record "broadcast" (lit "key-3") (replicate 32 6);
         secret_record "system" (lit "key-4") (replicate 32 7);
         secret_record "folder" (lit "key-5") (replicate 32 8) ];
     folder_map :=
       [ (lit "Messages", lit "11111111-1111-4111-8111-111111111111");
         (lit "Contacts", lit "22222222-2222-4222-8222-222222222222");
         (lit "Calendar", lit "33333333-3333-4333-8333-333333333333");
         (lit "Tasks", lit "44444444-4444-4444-8444-444444444444");
         (lit "Files", lit "55555555-5555-4555-8555-555555555555");
         (lit "Files Attachments", lit "66666666-6666-4666-8666-666666666666");
         (lit "Social", lit "77777777-7777-4777-8777-777777777777") ];
     devices :=
       [ Device (lit "88888888-8888-4888-8888-888888888888")
           (keypair_record "identity" (lit "key-6")
              (MkPrivateKey (replicate 32 9) (replicate 32 9))) ] |}.

(** A session on the tables [reset_database] made, with the entropy tape
    0, 1, 2, ... and nothing printed yet. *)
Definition example_world : world :=
  {| tape := Z.of_nat; pos := 0; db := Connection fresh_schema Idle; stdout := [] |}.

(** The example account without its key records. *)
Definition example_keyless : account :=
  {| wid := wid example_account;
     friendly_address := friendly_address example_account;
     password := password example_account;
     pwsalt := pwsalt example_account;
     pwsalt_b85 := pwsalt_b85 example_account;
     pwhash := pwhash example_account;
     pwhash_b85 := pwhash_b85 example_account;
     status := status example_account;
     keys := [];
     folder_map := folder_map example_account;
     devices := devices example_account |}.


Section Specification.
Context `{Sodium} `{Diceware}.

Definition privkey_at (t : nat → Z) (p : nat) : PrivateKey :=
  MkPrivateKey (draws t p 32 256) (crypto_scalarmult_base (draws t p 32 256)).

Definition device_at (t : nat → Z) (p : nat) : device :=
  Device (uuid_at t (p + 32))
         (keypair_record "identity" (unid_at t (p + 48) 50) (privkey_at t p)).

Fixpoint devices_at (t : nat → Z) (p : nat) (n : nat) : list device :=
  match n with
  | O => []
  | S n' => device_at t p :: devices_at t (p + 98) n'
  end.

Definition password_options : diceware_options :=
  DicewareOptions 3 true 0 (lit "") (lit "system") (lit "en_eff") None.

Definition pick (l : list (list Z)) (c : Z) : list Z :=
  default [] (l !! Z.to_nat (c `mod` Z.of_nat (length l))).

(** Where on the tape the passphrase starts, and where the salt does. *)
Definition has_alias (t : nat → Z) (p : nat) : bool :=
  1 + t (p + 16)%nat `mod` 100 <? 51.

Definition passphrase_pos (t : nat → Z) (p : nat) : nat :=
  (p + (17 + (if has_alias t p then 2 else 0)))%nat.

Definition salt_pos (t : nat → Z) (p : nat) : nat :=
  (passphrase_pos t p + (get_passphrase password_options t (passphrase_pos t p)).2)%nat.

(** The account that [generate_account] reads off the tape from [p] on. *)
Definition account_at (t : nat → Z) (p : nat) : account :=
  let q := salt_pos t p in
  let phrase := (get_passphrase password_options t (passphrase_pos t p)).1 in
  let salt := draws t q 16 256 in
  let hash := crypto_pwhash_argon2id KEY_SIZE (utf8 (lit phrase)) salt
                OPSLIMIT_INTERACTIVE MEMLIMIT_INTERACTIVE <$> seq 0 KEY_SIZE in
  Account
    (uuid_at t p)
    (if has_alias t p
     then join [pick first_names (t (p + 17)%nat); lit " ";
                pick last_names (t (p + 18)%nat); lit "/example.com"]
     else lit "")
    (lit phrase) salt (b85encode salt) hash (b85encode hash)
    (if 1 + t (q + 16)%nat `mod` 100 <? 76 then lit "active" else lit "disabled")
    [ keypair_record "identity" (unid_at t (q + 209) 50) (privkey_at t (q + 17));
      keypair_record "contact_request" (unid_at t (q + 259) 50) (privkey_at t (q + 49));
      keypair_record "firstdevice" (unid_at t (q + 309) 50) (privkey_at t (q + 81));
      secret_record "broadcast" (unid_at t (q + 359) 50) (draws t (q + 113) 32 256);
      secret_record "system" (unid_at t (q + 409) 50) (draws t (q + 145) 32 256);
      secret_record "folder" (unid_at t (q + 459) 50) (draws t (q + 177) 32 256) ]
    [ (lit "Messages", uuid_at t (q + 509)); (lit "Contacts", uuid_at t (q + 525));
      (lit "Calendar", uuid_at t (q + 541)); (lit "Tasks", uuid_at t (q + 557));
      (lit "Files", uuid_at t (q + 573));
      (lit "Files Attachments", uuid_at t (q + 589)); (lit "Social", uuid_at t (q + 605)) ]
    (devices_at t (q + 622) (Z.to_nat (1 + t (q + 621)%nat `mod` 5))).

Fixpoint folder_cmds (a : account) (key keyid : list Z) (t : nat → Z) (p : nat)
    (l : list (list Z * list Z)) : list (list Z) :=
  match l with
  | [] => []
  | (folder_name, fid) :: l' =>
      let nonce := draws t p NONCE_SIZE 256 in
      folder_cmd (wid a) fid
        (b85encode (nonce ++ crypto_secretbox (utf8 folder_name) nonce key)) keyid
      :: folder_cmds a key keyid t (p + NONCE_SIZE) l'
  end.

Definition public_b85_of (k : key) : list Z :=
  match k with
  | Keypair _ _ _ _ _ b _ => b
  | Secret _ _ _ _ _ => []
  end.

Definition is_keypair (k : key) : bool :=
  match k with Keypair _ _ _ _ _ _ _ => true | Secret _ _ _ _ _ => false end.

Definition session_cmds (a : account) : list (list Z) :=
  (λ d, session_cmd (wid a) (dev_id d) (public_b85_of (dev_key d))) <$> devices a.

(** Every command the writer sends for an account, in order. *)
Definition account_cmds (a : account) (key keyid : list Z) (t : nat → Z) (p : nat)
  : list (list Z) :=
  main_cmd a :: folder_cmds a key keyid t p (folder_map a) ++ session_cmds a.

(** The shape [add_account_to_db] relies on: the sixth key record holds a
    secret key of the right size, the folder names can be encoded and
    every device has a key pair. *)
Definition writable (a : account) (key keyid : list Z) : Prop :=
  (∃ ty pu b85, keys a !! 5%nat = Some (Secret ty pu keyid key b85))
  ∧ length key = KEY_SIZE
  ∧ Forall (λ kv, is_Some (utf8_encode kv.1)) (folder_map a)
  ∧ Forall (λ d, is_keypair (dev_key d) = true) (devices a).

Definition in_txn (c : database) (d : database) (w : world) : world :=
  set_db (Connection c (Active d)) w.






(** A key record whose fields agree with each other: the declared type,
    32 octets of secret material, the public key derived from the private
    one, and printable fields that are the base-85 text of the raw ones. *)
Definition key_consistent (k : key) : Prop :=
  match k with
  | Keypair ty _ _ public_key private_key public_b85 private_b85 =>
      ty = lit "ed25519" ∧ length private_key = 32%nat
      ∧ public_key = crypto_scalarmult_base private_key
      ∧ public_b85 = b85encode public_key ∧ private_b85 = b85encode private_key
  | Secret ty _ _ key key_b85 =>
      ty = lit "aes256" ∧ length key = 32%nat ∧ key_b85 = b85encode key
  end.

(** The label of an entry of device number [n]. *)
Definition device_label (n : nat) (suffix : string) : list Z :=
  join [lit "Device #"; str_of_nat n; lit suffix].

Definition private_b85_of (k : key) : list Z :=
  match k with
  | Keypair _ _ _ _ _ _ b => b
  | Secret _ _ _ _ _ => []
  end.

(** The entries of the devices from number [i + 1] on, three for each. *)
Fixpoint device_entries (i : nat) (ds : list device) : list (list Z * list Z) :=
  match ds with
  | [] => []
  | d :: ds' =>
      [ (device_label (i + 1) " ID", dev_id d);
        (device_label (i + 1) " Public.b85", public_b85_of (dev_key d));
        (device_label (i + 1) " Private.b85", private_b85_of (dev_key d)) ]
      ++ device_entries (S i) ds'
  end.

(** No entry carries a label of a device numbered above [i]. *)
Definition labels_below (i : nat) (out : list (list Z * list Z)) : Prop :=
  ∀ j (s : string), (i < j)%nat → head (lit s) = Some 32 → device_label j s ∉ out.*1.

Definition key_b85_of (k : key) : list Z :=
  match k with
  | Keypair _ _ _ _ _ _ _ => []
  | Secret _ _ _ _ b => b
  end.

(** The 22 entries [dump_account] starts from, for the six key records and
    the seven folder ids it looked up. *)
Definition account_entries (a : account) (k0 k1 k2 k3 k4 k5 : key)
    (messages contacts calendar tasks files attachments social : list Z)
  : list (list Z * list Z) :=
  [ (lit "Workspace ID", wid a);
    (lit "Friendly Address", friendly_address a);
    (lit "Status", status a);
    (lit "Password", password a);
    (lit "Password Salt.b85", pwsalt_b85 a);
    (lit "Password Hash.b85", pwhash_b85 a);
    (lit "Identity Public.b85", public_b85_of k0);
    (lit "Identity Private.b85", private_b85_of k0);
    (lit "Contact Public.b85", public_b85_of k1);
    (lit "Contact Private.b85", private_b85_of k1);
    (lit "First Device Public.b85", public_b85_of k2);
    (lit "First Device Private.b85", private_b85_of k2);
    (lit "Broadcast.b85", key_b85_of k3);
    (lit "System.b85", key_b85_of k4);
    (lit "Folder Map.b85", key_b85_of k5);
    (lit "Message Folder", messages);
    (lit "Contacts Folder", contacts);
    (lit "Calendar Folder", calendar);
    (lit "Tasks Folder", tasks);
    (lit "Files Folder", files);
    (lit "Attachments Folder", attachments);
    (lit "Social Folder", social) ].

(** The names [dump_account] looks up in the folder map. *)
Definition folder_names : list string :=
  [ "Messages"; "Contacts"; "Calendar"; "Tasks"; "Files"; "Files Attachments"; "Social" ].

(** The accounts [dump_account] can print: six key records of which the
    first three are key pairs and the next three secret keys, the seven
    folder names, and a key pair in every device. *)
Definition dumpable (a : account) : Prop :=
  is_keypair <$> take 6 (keys a) = [true; true; true; false; false; false]
  ∧ Forall (λ name, lit name ∈ (folder_map a).*1) folder_names
  ∧ Forall (λ d, is_keypair (dev_key d) = true) (devices a).

(** What a run of [dump_account] comes to: an exception with nothing
    printed, or the 22 entries, three for each device and an empty line. *)
Definition dumped (a : account) (w : world) (r : (exn + ()) * world) : Prop :=
  match r with
  | (inl _, w') => w' = w
  | (inr _, w') =>
      ∃ k0 k1 k2 k3 k4 k5 m c cal t f at' so,
        take 6 (keys a) = [k0; k1; k2; k3; k4; k5]
        ∧ dumpable a
        ∧ w' = World (tape w) (pos w) (db w)
                 (stdout w
                  ++ (dump_line <$> account_entries a k0 k1 k2 k3 k4 k5 m c cal t f at' so
                                    ++ device_entries 0 (devices a))
                  ++ [lit ""])
  end.

(** The encrypted folder names the writer sends, with the nonces read from
    position [p] of the tape on. *)
Fixpoint enc_names (key : list Z) (t : nat → Z) (p : nat) (l : list (list Z * list Z))
  : list (list Z) :=
  match l with
  | [] => []
  | (folder_name, _) :: l' =>
      let nonce := draws t p NONCE_SIZE 256 in
      b85encode (nonce ++ crypto_secretbox (utf8 folder_name) nonce key)
      :: enc_names key t (p + NONCE_SIZE) l'
  end.

Definition folder_rows (a : account) (key keyid : list Z) (t : nat → Z) (p : nat)
  : list (Z → list value) :=
  zip_with (λ kv enc_name, folder_row (wid a) kv.2 enc_name keyid)
           (folder_map a) (enc_names key t p (folder_map a)).

Definition session_rows (a : account) : list (Z → list value) :=
  (λ d, session_row (wid a) (dev_id d) (public_b85_of (dev_key d))) <$> devices a.

Definition append_rows (name : string) (rows : list (Z → list value)) (d : database)
  : database :=
  foldl (λ d row, append_row name row d) d rows.

(** The tables after the rows of an account have been added. *)
Definition stored (a : account) (key keyid : list Z) (t : nat → Z) (p : nat)
    (d : database) : database :=
  append_rows "iwkspc_sessions" (session_rows a)
    (append_rows "iwkspc_folders" (folder_rows a key keyid t p)
       (append_row "iwkspc_main" (main_row a) d)).

(** A value that can stand between single quotes and fits [n] characters. *)
Definition quotable (n : nat) (s : list Z) : Prop := (39 ∉ s) ∧ (length s ≤ n)%nat.

(** A value that can stand between [$$] and fits [n] characters. *)
Definition dollar_quotable (n : nat) (s : list Z) : Prop := (36 ∉ s) ∧ (length s ≤ n)%nat.

(** The values of an account the INSERT commands can carry as they are
    written: none holds the quote character of its place and each fits its
    column. *)
Definition storable (a : account) (key keyid : list Z) (t : nat → Z) (p : nat) : Prop :=
  quotable 36 (wid a) ∧ quotable 48 (friendly_address a)
  ∧ dollar_quotable 128 (pwhash_b85 a) ∧ quotable 16 (status a)
  ∧ dollar_quotable 64 keyid
  ∧ Forall (quotable 36) (folder_map a).*2
  ∧ Forall (λ n, length n ≤ 128)%nat (enc_names key t p (folder_map a))
  ∧ Forall (λ d, quotable 36 (dev_id d) ∧ dollar_quotable 128 (public_b85_of (dev_key d)))
           (devices a).

(** The exception [nacl.secret.SecretBox(account['keys'][5]['key'])]
    raises, if any: no sixth key record, a record without the field
    ['key'], or a key of the wrong size. *)
Definition folder_key_error (a : account) : option exn :=
  match keys a !! 5%nat with
  | None => Some IndexError
  | Some (Keypair _ _ _ _ _ _ _) => Some (KeyError "key")
  | Some (Secret _ _ _ key _) =>
      if bool_decide (length key = KEY_SIZE) then None else Some ValueError
  end.

(** The values of the first INSERT can be carried as they are written. *)
Definition main_storable (a : account) : Prop :=
  quotable 36 (wid a) ∧ quotable 48 (friendly_address a)
  ∧ dollar_quotable 128 (pwhash_b85 a) ∧ quotable 16 (status a).

(** One turn of the loop of the script. *)
Definition iteration (i : Z) : py unit :=
  test ← generate_account; add_account_to_db test;; dump_account test.

End Specification.

(** * Proofs *)

Example b85encode_5 : b85encode [1; 2; 3; 4; 5] = lit "0RjUA1p".
Proof. reflexivity. Qed.

Example b85encode_7 : b85encode [0; 1; 2; 3; 4; 5; 6] = lit "009C61O)~".
Proof. reflexivity. Qed.

Example UUID_ones :
  UUID_str (UUID_version4 (replicate 16 1)) = lit "01010101-0101-4101-8101-010101010101".
Proof. reflexivity. Qed.

Example UUID_ff :
  UUID_str (UUID_version4 (replicate 16 255)) = lit "ffffffff-ffff-4fff-bfff-ffffffffffff"
  ∧ is_uuid_form (UUID_str (UUID_version4 (replicate 16 255))) = true.
Proof. split; reflexivity. Qed.

(** * Running computations *)

Lemma bind_run {A B} (m : py A) (k : A → py B) w a w' :
  m w = (inr a, w') → (m ≫= k) w = k a w'.
Proof. intros Hm. unfold mbind, py_bind, bind. by rewrite Hm. Qed.

Lemma bind_raise {A B} (m : py A) (k : A → py B) w e w' :
  m w = (inl e, w') → (m ≫= k) w = (inl e, w').
Proof. intros Hm. unfold mbind, py_bind, bind. by rewrite Hm. Qed.

Lemma skip_skip n m w : skip n (skip m w) = skip (m + n) w.
Proof. unfold skip; simpl. f_equal. lia. Qed.

Lemma skip_0 w : skip 0 w = w.
Proof. destruct w. unfold skip; simpl. f_equal. lia. Qed.

Lemma draws_S t p n m :
  draws t p (S n) m = t p `mod` m :: draws t (p + 1) n m.
Proof.
  unfold draws. rewrite <- cons_seq, fmap_cons, <- fmap_S_seq, <- list_fmap_compose.
  f_equal; [by rewrite Nat.add_0_r|].
  apply list_fmap_ext. intros _ i _. simpl. do 2 f_equal. lia.
Qed.

Lemma length_draws t p n m : length (draws t p n m) = n.
Proof. unfold draws. by rewrite length_fmap, length_seq. Qed.


Lemma randbelow_run n w : randbelow n w = (inr (tape w (pos w) `mod` n), skip 1 w).
Proof. reflexivity. Qed.

Lemma choice_run {A} (d : A) (l : list A) w :
  l ≠ [] →
  choice l w = (inr (default d (l !! Z.to_nat (tape w (pos w) `mod` Z.of_nat (length l)))),
                skip 1 w).
Proof.
  intros Hl. unfold choice.
  assert (0 < length l)%nat by (destruct l; simpl; [done|lia]).
  rewrite bool_decide_eq_false_2 by lia.
  erewrite bind_run by apply randbelow_run.
  destruct (lookup_lt_is_Some_2 l (Z.to_nat (tape w (pos w) `mod` Z.of_nat (length l))))
    as [x Hx].
  { pose proof (Z.mod_pos_bound (tape w (pos w)) (Z.of_nat (length l))). lia. }
  by rewrite Hx.
Qed.

Lemma repeatM_choice {A} (d : A) (l : list A) n w :
  l ≠ [] →
  repeatM n (choice l) w
  = (inr ((λ c, default d (l !! Z.to_nat c))
            <$> draws (tape w) (pos w) n (Z.of_nat (length l))),
     skip n w).
Proof.
  intros Hl. revert w. induction n as [|n IH]; intros w.
  - simpl. by rewrite skip_0.
  - cbn [repeatM]. erewrite bind_run by by apply (choice_run d).
    erewrite bind_run by apply IH.
    rewrite draws_S, skip_skip. done.
Qed.

(** * The alphabet of generate_unid *)




Lemma length_charlist : length charlist = 2322%nat.
Proof. vm_compute. reflexivity. Qed.



Lemma join_singletons (l : list Z) : join ((λ c, [c]) <$> l) = l.
Proof. induction l as [|x l IH]; [done|]. unfold join in *. cbn. by f_equal. Qed.

Lemma generate_unid_run len w :
  let n := Z.to_nat (Z.max len 50) in
  generate_unid len w = (inr (unid_at (tape w) (pos w) n), skip n w).
Proof.
  intros n. unfold generate_unid.
  assert (Z.to_nat (if len <? 50 then 50 else len) = n) as ->.
  { subst n. destruct (Z.ltb_spec len 50); f_equal; lia. }
  erewrite bind_run.
  2:{ apply (repeatM_choice 0). intros Hnil.
      pose proof length_charlist as Hlen. rewrite Hnil in Hlen. done. }
  by rewrite join_singletons.
Qed.




(** * UUIDs *)

















Lemma str_uuid4_run w : str_uuid4 w = (inr (uuid_at (tape w) (pos w)), skip 16 w).
Proof. unfold str_uuid4. erewrite bind_run; [|unfold os_urandom; reflexivity]. unfold uuid_at, uuid_value. reflexivity. Qed.




Lemma os_urandom_run n w : os_urandom n w = (inr (draws (tape w) (pos w) n 256), skip n w).
Proof. reflexivity. Qed.

Lemma randrange_run a b w :
  a < b → randrange a b w = (inr (a + tape w (pos w) `mod` (b - a)), skip 1 w).
Proof.
  intros Hab. unfold randrange. destruct (Z.leb_spec (b - a) 0); [lia|].
  by erewrite bind_run by apply randbelow_run.
Qed.

Lemma randint_run a b w :
  a ≤ b → randint a b w = (inr (a + tape w (pos w) `mod` (b + 1 - a)), skip 1 w).
Proof. intros Hab. unfold randint. apply randrange_run. lia. Qed.

Lemma lit_octets s : Forall (λ c, 0 ≤ c < 256) (lit s).
Proof.
  unfold lit. apply Forall_fmap, Forall_forall. intros c _. simpl.
  pose proof (Ascii.nat_ascii_bounded c). lia.
Qed.

Lemma utf8_char_Some c : 0 ≤ c < 256 → is_Some (utf8_char c).
Proof.
  intros Hc. unfold utf8_char.
  destruct (Z.ltb_spec c 0); [lia|].
  destruct (Z.ltb_spec c 128); [by eexists|].
  destruct (Z.ltb_spec c 2048); [by eexists|lia].
Qed.

Lemma utf8_encode_lit s : is_Some (utf8_encode (lit s)).
Proof.
  unfold utf8_encode. apply fmap_is_Some, mapM_is_Some.
  eapply Forall_impl; [apply lit_octets|]. intros c Hc. by apply utf8_char_Some.
Qed.

Lemma bytes_utf8_run s w : is_Some (utf8_encode s) → bytes_utf8 s w = (inr (utf8 s), w).
Proof. intros [b Hb]. unfold bytes_utf8, utf8. by rewrite Hb. Qed.

Section Generated.
Context `{Sodium} `{Diceware}.

Lemma PrivateKey_generate_run w :
  PrivateKey_generate w = (inr (privkey_at (tape w) (pos w)), skip 32 w).
Proof. reflexivity. Qed.

Lemma argon2id_kdf_run size password salt opslimit memlimit w :
  length salt = SALTBYTES →
  OPSLIMIT_MIN ≤ opslimit ≤ OPSLIMIT_MAX →
  MEMLIMIT_MIN ≤ memlimit ≤ MEMLIMIT_MAX →
  (BYTES_MIN ≤ size)%nat →
  argon2id_kdf size password salt opslimit memlimit w
  = (inr (crypto_pwhash_argon2id size password salt opslimit memlimit <$> seq 0 size), w).
Proof.
  intros Hsalt [Ho1 Ho2] [Hm1 Hm2] Hsize. unfold argon2id_kdf.
  rewrite (bool_decide_eq_true_2 _ Hsalt). cbn [negb].
  apply Z.leb_le in Ho1, Ho2, Hm1, Hm2. rewrite Ho1, Ho2, Hm1, Hm2. cbn [andb negb].
  by rewrite (bool_decide_eq_true_2 _ Hsize).
Qed.

Lemma generate_password_run w :
  generate_password w
  = (inr (lit (get_passphrase password_options (tape w) (pos w)).1),
     skip (get_passphrase password_options (tape w) (pos w)).2 w).
Proof.
  unfold generate_password, diceware_get_passphrase. fold password_options.
  by destruct (get_passphrase password_options (tape w) (pos w)).
Qed.

Lemma generate_unid_50 w :
  generate_unid 50 w = (inr (unid_at (tape w) (pos w) 50), skip 50 w).
Proof. apply (generate_unid_run 50 w). Qed.

Lemma device_loop_run n acc w :
  device_loop n acc w
  = (inr (acc ++ devices_at (tape w) (pos w) n), skip (98 * n) w).
Proof.
  revert acc w. induction n as [|n IH]; intros acc w.
  - cbn [device_loop devices_at]. rewrite Nat.mul_0_r, skip_0, app_nil_r. done.
  - cbn [device_loop devices_at].
    erewrite bind_run by apply PrivateKey_generate_run.
    erewrite bind_run by apply str_uuid4_run.
    erewrite bind_run by apply generate_unid_50.
    rewrite IH, !skip_skip, <- app_assoc.
    replace (skip (32 + 16 + 50 + 98 * n) w) with (skip (98 * S n) w)
      by (unfold skip; f_equal; lia).
    reflexivity.
Qed.

Lemma friendly_address_run (r : Z) (k : nat) (w : world) :
  (if r <? 51
   then first ← choice first_names;
        last ← choice last_names;
        mret (join [first; lit " "; last; lit "/example.com"])
   else mret (lit "")) (skip k w)
  = (inr (if r <? 51
          then join [pick first_names (tape w (pos w + k)%nat); lit " ";
                     pick last_names (tape w (pos w + (k + 1))%nat); lit "/example.com"]
          else lit ""),
     skip (k + (if r <? 51 then 2 else 0)) w).
Proof.
  destruct (r <? 51).
  - erewrite bind_run by by apply (choice_run []).
    rewrite skip_skip.
    erewrite bind_run by by apply (choice_run []).
    rewrite skip_skip.
    replace (skip (k + 1 + 1) w) with (skip (k + 2) w) by (unfold skip; f_equal; lia).
    reflexivity.
  - by rewrite Nat.add_0_r.
Qed.

Lemma generate_account_run w :
  let t := tape w in
  let q := salt_pos t (pos w) in
  generate_account w
  = (inr (account_at t (pos w)),
     World t (q + 622 + 98 * Z.to_nat (1 + t (q + 621)%nat `mod` 5)) (db w) (stdout w)).
Proof.
  intros t q. unfold generate_account.
  erewrite bind_run by apply str_uuid4_run.
  erewrite bind_run by (apply randint_run; lia).
  rewrite skip_skip.
  erewrite bind_run by apply friendly_address_run.
  erewrite bind_run by apply generate_password_run.
  rewrite skip_skip.
  match goal with |- context [skip (?a + (get_passphrase ?o ?tt ?pp).2) w] =>
    replace (skip (a + (get_passphrase o tt pp).2) w) with (World t q (db w) (stdout w))
  end.
  2:{ unfold skip, q, salt_pos, passphrase_pos, has_alias. subst t.
      cbn [tape pos db stdout]. change (100 + 1 - 1) with 100.
      change (16 + 1)%nat with 17%nat. f_equal. lia. }
  erewrite bind_run by apply os_urandom_run.
  erewrite bind_run by apply bytes_utf8_run, utf8_encode_lit.
  erewrite bind_run
    by (apply argon2id_kdf_run; [apply length_draws|done|done|unfold BYTES_MIN, KEY_SIZE; lia]).
  erewrite bind_run by (apply randint_run; lia).
  do 3 (rewrite ?skip_skip; erewrite bind_run by apply PrivateKey_generate_run).
  do 3 (rewrite ?skip_skip; erewrite bind_run by apply os_urandom_run).
  do 6 (rewrite ?skip_skip; erewrite bind_run by apply generate_unid_50).
  do 7 (rewrite ?skip_skip; erewrite bind_run by apply str_uuid4_run).
  rewrite ?skip_skip. erewrite bind_run by (apply randrange_run; lia).
  rewrite ?skip_skip. erewrite bind_run by apply device_loop_run.
  rewrite ?skip_skip.
  rewrite Z.sub_0_r. change (6 - 1) with 5.
  unfold mret, py_ret, ret. f_equal.
  unfold skip, SALTBYTES, KEY_SIZE; cbn [tape pos db stdout]. f_equal.
  match goal with |- context [Z.to_nat ?x] =>
    change (Z.to_nat x) with (Z.to_nat (1 + t (q + 621)%nat `mod` 5))
  end.
  lia.
Qed.

End Generated.

Lemma pg_run_app cmds1 cmds2 d :
  pg_run (cmds1 ++ cmds2) d
  = match pg_run cmds1 d with inr d' => pg_run cmds2 d' | inl e => inl e end.
Proof.
  revert d. induction cmds1 as [|c cmds1 IH]; intros d; [done|].
  cbn [pg_run app]. destruct (pg_execute c d); [done|apply IH].
Qed.

Section Writer.
Context `{Sodium} `{Diceware}.

Lemma cursor_execute_active cmd w d :
  txn_state (db w) = Active d →
  cursor_execute cmd w
  = match pg_execute cmd d with
    | inr d' => (inr (), set_db (Connection (committed (db w)) (Active d')) w)
    | inl e => (inl (DatabaseError e), set_db (Connection (committed (db w)) Aborted) w)
    end.
Proof. intros Hd. unfold cursor_execute, working. by rewrite Hd. Qed.

Lemma index_run {A} (l : list A) i x w : l !! i = Some x → index l i w = (inr x, w).
Proof. intros Hl. unfold index. by rewrite Hl. Qed.

Lemma SecretBox_encrypt_run box plaintext w :
  SecretBox_encrypt box plaintext w
  = (inr (draws (tape w) (pos w) NONCE_SIZE 256
          ++ crypto_secretbox plaintext (draws (tape w) (pos w) NONCE_SIZE 256) (box_key box)),
     skip NONCE_SIZE w).
Proof. reflexivity. Qed.

Lemma folders_run a key keyid l w d :
  (∃ ty pu b85, keys a !! 5%nat = Some (Secret ty pu keyid key b85)) →
  Forall (λ kv, is_Some (utf8_encode kv.1)) l →
  txn_state (db w) = Active d →
  match pg_run (folder_cmds a key keyid (tape w) (pos w) l) d with
  | inr d' =>
      for_each l (add_folder a (MkSecretBox key)) w
      = (inr (), World (tape w) (pos w + NONCE_SIZE * length l)
                       (Connection (committed (db w)) (Active d')) (stdout w))
  | inl e =>
      ∃ w', for_each l (add_folder a (MkSecretBox key)) w = (inl (DatabaseError e), w')
            ∧ committed (db w') = committed (db w) ∧ txn_state (db w') = Aborted
  end.
Proof.
  intros (ty & pu & b85 & Hk5) Hl. revert w d.
  induction Hl as [|[folder_name fid] l Hname Hl IH]; intros w d Hd.
  - cbn [folder_cmds pg_run for_each length]. destruct w as [t p [c s] o].
    cbn in Hd. subst s. unfold mret, py_ret, ret. cbn. do 2 f_equal. lia.
  - cbn [folder_cmds pg_run for_each].
    set (cmd := folder_cmd _ _ _ _).
    assert (add_folder a (MkSecretBox key) (folder_name, fid) w
            = cursor_execute cmd (skip NONCE_SIZE w)) as Hstep.
    { unfold add_folder. erewrite bind_run by by apply bytes_utf8_run.
      erewrite bind_run by apply SecretBox_encrypt_run.
      erewrite bind_run by by apply index_run. reflexivity. }
    rewrite (cursor_execute_active cmd (skip NONCE_SIZE w) d Hd) in Hstep.
    destruct (pg_execute cmd d) as [e|d1] eqn:Hexec.
    + eexists. split; [by erewrite bind_raise by exact Hstep|]. by split.
    + erewrite bind_run by exact Hstep. cbv beta.
      set (w1 := set_db _ _).
      specialize (IH w1 d1 eq_refl).
      change (tape w1) with (tape w) in IH.
      change (pos w1) with (pos w + NONCE_SIZE)%nat in IH.
      change (committed (db w1)) with (committed (db w)) in IH.
      change (stdout w1) with (stdout w) in IH.
      destruct (pg_run _ d1) as [e|d'].
      * exact IH.
      * rewrite IH. do 2 f_equal. cbn [length]. lia.
Qed.

Lemma devices_run a (l : list device) w d :
  Forall (λ d, is_keypair (dev_key d) = true) l →
  txn_state (db w) = Active d →
  match pg_run ((λ d, session_cmd (wid a) (dev_id d) (public_b85_of (dev_key d))) <$> l) d with
  | inr d' =>
      for_each l (add_device a) w
      = (inr (), set_db (Connection (committed (db w)) (Active d')) w)
  | inl e =>
      ∃ w', for_each l (add_device a) w = (inl (DatabaseError e), w')
            ∧ committed (db w') = committed (db w) ∧ txn_state (db w') = Aborted
  end.
Proof.
  intros Hl. revert w d.
  induction Hl as [|dev l Hdev Hl IH]; intros w d Hd.
  - cbn [fmap list_fmap pg_run for_each]. destruct w as [t p [c s] o].
    cbn in Hd. subst s. reflexivity.
  - cbn [fmap list_fmap pg_run for_each].
    set (cmd := session_cmd _ _ _).
    assert (add_device a dev w = cursor_execute cmd w) as Hstep.
    { unfold add_device. destruct (dev_key dev); [|done].
      unfold get_public_b85. by erewrite bind_run by reflexivity. }
    rewrite (cursor_execute_active cmd w d Hd) in Hstep.
    destruct (pg_execute cmd d) as [e|d1] eqn:Hexec.
    + eexists. split; [by erewrite bind_raise by exact Hstep|]. by split.
    + erewrite bind_run by exact Hstep. cbv beta.
      set (w1 := set_db _ _).
      specialize (IH w1 d1 eq_refl).
      change (committed (db w1)) with (committed (db w)) in IH.
      destruct (pg_run _ d1) as [e|d']; [exact IH|]. by rewrite IH.
Qed.

Lemma cursor_execute_working cmd w :
  txn_state (db w) ≠ Aborted →
  cursor_execute cmd w
  = match pg_execute cmd (working (db w)) with
    | inr d' => (inr (), set_db (Connection (committed (db w)) (Active d')) w)
    | inl e => (inl (DatabaseError e), set_db (Connection (committed (db w)) Aborted) w)
    end.
Proof. intros Hd. unfold cursor_execute. by destruct (txn_state (db w)). Qed.

Lemma add_account_to_db_working a key keyid w :
  writable a key keyid →
  txn_state (db w) ≠ Aborted →
  match pg_run (account_cmds a key keyid (tape w) (pos w)) (working (db w)) with
  | inr d =>
      add_account_to_db a w
      = (inr (), World (tape w) (pos w + NONCE_SIZE * length (folder_map a))
                       (Connection d Idle) (stdout w))
  | inl e =>
      ∃ w', add_account_to_db a w = (inl (DatabaseError e), w')
            ∧ committed (db w') = committed (db w) ∧ txn_state (db w') = Aborted
  end.
Proof.
  intros ((ty & pu & b85 & Hk5) & Hkey & Hnames & Hdevs) Htxn.
  unfold add_account_to_db, dbconn_cursor, cursor_close.
  erewrite bind_run by reflexivity. cbv beta.
  unfold account_cmds. cbn [pg_run].
  pose proof (cursor_execute_working (main_cmd a) w Htxn) as Hmain.
  destruct (pg_execute (main_cmd a) (working (db w))) as [e|d1].
  { eexists. split; [by erewrite bind_raise by exact Hmain|by split]. }
  erewrite bind_run by exact Hmain. cbv beta.
  set (w1 := set_db _ w).
  erewrite bind_run by (by apply index_run).
  erewrite bind_run by reflexivity.
  erewrite bind_run by (unfold SecretBox_new; by rewrite (bool_decide_eq_true_2 _ Hkey)).
  cbv beta. rewrite pg_run_app.
  pose proof (folders_run a key keyid (folder_map a) w1 d1
                (ex_intro _ ty (ex_intro _ pu (ex_intro _ b85 Hk5))) Hnames eq_refl) as Hf.
  change (tape w1) with (tape w) in Hf. change (pos w1) with (pos w) in Hf.
  change (committed (db w1)) with (committed (db w)) in Hf.
  change (stdout w1) with (stdout w) in Hf.
  destruct (pg_run (folder_cmds _ _ _ _ _ _) d1) as [e|d2].
  { destruct Hf as (w' & Hf & ? & ?). eexists.
    split; [by erewrite bind_raise by exact Hf|by split]. }
  erewrite bind_run by exact Hf. cbv beta.
  set (w2 := World _ _ _ _).
  pose proof (devices_run a (devices a) w2 d2 Hdevs eq_refl) as Hd.
  change (committed (db w2)) with (committed (db w)) in Hd.
  unfold session_cmds.
  destruct (pg_run (_ <$> devices a) d2) as [e|d3].
  { destruct Hd as (w' & Hd & ? & ?). eexists.
    split; [by erewrite bind_raise by exact Hd|by split]. }
  erewrite bind_run by exact Hd. cbv beta.
  erewrite bind_run by reflexivity. reflexivity.
Qed.

(** What [add_account_to_db] does with an account of the expected shape:
    if every command succeeds, all of them are committed together; if one
    fails, its error is raised and nothing is committed. *)
Lemma add_account_to_db_run a key keyid w :
  writable a key keyid →
  match conn_run (account_cmds a key keyid (tape w) (pos w)) (db w) with
  | inr d =>
      add_account_to_db a w
      = (inr (), World (tape w) (pos w + NONCE_SIZE * length (folder_map a))
                       (Connection d Idle) (stdout w))
  | inl e =>
      ∃ w', add_account_to_db a w = (inl (DatabaseError e), w')
            ∧ committed (db w') = committed (db w) ∧ txn_state (db w') = Aborted
  end.
Proof.
  intros Ha. unfold conn_run.
  destruct (txn_state (db w)) as [|d0|] eqn:Htxn.
  - apply add_account_to_db_working; [done|]. by rewrite Htxn.
  - apply add_account_to_db_working; [done|]. by rewrite Htxn.
  - unfold account_cmds. exists w. split; [|by split].
    unfold add_account_to_db, dbconn_cursor.
    erewrite bind_run by reflexivity. cbv beta.
    apply bind_raise. unfold cursor_execute. by rewrite Htxn.
Qed.

End Writer.


Lemma uncommitting_raise {A} e : uncommitting (raise e : py A).
Proof. by intros w. Qed.




Section Atomic.
Context `{Sodium} `{Diceware}.









End Atomic.

#[global] Opaque charlist.
#[global] Arguments UUID_str : simpl never.
#[global] Arguments UUID_version4 : simpl never.
#[global] Arguments uuid_at : simpl never.
#[global] Arguments uuid_value : simpl never.
#[global] Arguments unid_at : simpl never.
#[global] Arguments b85encode : simpl never.
#[global] Arguments draws : simpl never.
#[global] Arguments lit : simpl never.




Section Accounts.
Context `{Sodium} `{Diceware}.

Lemma length_devices_at t p n : length (devices_at t p n) = n.
Proof. revert p. induction n as [|n IH]; intros p; [done|]. cbn. by rewrite IH. Qed.



Lemma keypairs_devices_at t p n :
  Forall (λ d, is_keypair (dev_key d) = true) (devices_at t p n).
Proof.
  revert p. induction n as [|n IH]; intros p; [constructor|].
  cbn [devices_at]. constructor; [reflexivity|apply IH].
Qed.

Lemma device_count_bounds (c : Z) : (1 ≤ Z.to_nat (1 + c `mod` 5) ≤ 5)%nat.
Proof. pose proof (Z.mod_pos_bound c 5 ltac:(lia)). lia. Qed.

Lemma account_at_writable t p :
  writable (account_at t p) (draws t (salt_pos t p + 177) 32 256)
           (unid_at t (salt_pos t p + 459) 50).
Proof.
  split; [eexists _, _, _; reflexivity|]. split; [apply length_draws|]. split.
  - cbn [account_at folder_map]. repeat (apply Forall_cons; split; [apply utf8_encode_lit|]).
    apply Forall_nil_2.
  - apply keypairs_devices_at.
Qed.

End Accounts.

Lemma pg_execute_dropcmd d : pg_execute dropcmd d = inr ∅.
Proof. vm_compute. reflexivity. Qed.

Lemma pg_run_creates :
  pg_run [create_main; create_folders; create_sessions] ∅ = inr fresh_schema.
Proof. vm_compute. reflexivity. Qed.

Lemma reset_database_working w :
  txn_state (db w) ≠ Aborted →
  reset_database w = (inr (), set_db (Connection fresh_schema Idle) w).
Proof.
  intros Htxn. unfold reset_database, dbconn_cursor, cursor_close.
  erewrite bind_run by reflexivity. cbv beta.
  erewrite bind_run.
  2:{ rewrite (cursor_execute_working _ _ Htxn), pg_execute_dropcmd. reflexivity. }
  cbv beta. pose proof pg_run_creates as Hrun. cbn [pg_run] in Hrun.
  destruct (pg_execute create_main ∅) as [|d1] eqn:H1; [done|].
  destruct (pg_execute create_folders d1) as [|d2] eqn:H2; [done|].
  destruct (pg_execute create_sessions d2) as [|d3] eqn:H3; [done|].
  injection Hrun as <-.
  erewrite bind_run.
  2:{ erewrite cursor_execute_active by reflexivity. rewrite H1. reflexivity. }
  cbv beta. erewrite bind_run.
  2:{ erewrite cursor_execute_active by reflexivity. rewrite H2. reflexivity. }
  cbv beta. erewrite bind_run.
  2:{ erewrite cursor_execute_active by reflexivity. rewrite H3. reflexivity. }
  cbv beta. erewrite bind_run by reflexivity. reflexivity.
Qed.

(** C9. Run on a usable connection, [reset_database] returns and leaves
    committed exactly the three empty tables iwkspc_main, iwkspc_folders
    and iwkspc_sessions, whatever was there before; run again right after,
    it returns again and leaves the very same state.  (On a connection
    whose transaction is aborted the first command is refused.) *)
Theorem reset_database_idempotent (w : world) :
  match txn_state (db w) with
  | Aborted => reset_database w = (inl (DatabaseError InFailedSqlTransaction), w)
  | _ =>
      let w1 := set_db (Connection fresh_schema Idle) w in
      reset_database w = (inr (), w1)
      ∧ reset_database w1 = (inr (), w1)
      ∧ dom (committed (db w1))
        = ({[ lit "iwkspc_main"; lit "iwkspc_folders"; lit "iwkspc_sessions" ]} : gset (list Z))
      ∧ map_Forall (λ _ t, tbl_rows t = [] ∧ tbl_serial t = 1) (committed (db w1))
  end.
Proof.
  destruct (txn_state (db w)) as [|d0|] eqn:Htxn.
  3:{ unfold reset_database, dbconn_cursor. erewrite bind_run by reflexivity.
      apply bind_raise. unfold cursor_execute. by rewrite Htxn. }
  all: split; [apply reset_database_working; by rewrite Htxn|];
    split; [apply (reset_database_working (set_db _ w)); done|];
    split; [cbn [set_db db committed]; unfold fresh_schema;
            rewrite !dom_insert_L, dom_singleton_L; set_solver|];
    cbn [set_db db committed]; unfold fresh_schema;
    repeat (apply map_Forall_insert_2; [done|]); apply map_Forall_empty.
Qed.

Section Hashing.
Context `{Sodium} `{Diceware}.

Lemma argon2id_kdf_length size password salt opslimit memlimit w out w' :
  argon2id_kdf size password salt opslimit memlimit w = (inr out, w') →
  length out = size.
Proof.
  unfold argon2id_kdf. repeat (case_match; [intros [=]|]).
  intros [= <- _]. by rewrite length_fmap, length_seq.
Qed.

(** C8. Every account [generate_account] produces has a password hash of
    exactly KEY_SIZE = 32 octets and a salt of SALTBYTES = 16 octets; the
    key derivation returns the requested number of octets whatever the
    cost parameters it accepts. *)
Theorem password_hash_length (w0 : world) :
  (∀ size password salt opslimit memlimit w out w',
     argon2id_kdf size password salt opslimit memlimit w = (inr out, w') →
     length out = size)
  ∧ ∃ a w1,
      generate_account w0 = (inr a, w1)
      ∧ length (pwhash a) = KEY_SIZE ∧ KEY_SIZE = 32%nat
      ∧ length (pwsalt a) = SALTBYTES ∧ SALTBYTES = 16%nat
      ∧ ∀ w, argon2id_kdf KEY_SIZE (utf8 (password a)) (pwsalt a)
               OPSLIMIT_INTERACTIVE MEMLIMIT_INTERACTIVE w = (inr (pwhash a), w).
Proof.
  split; [apply argon2id_kdf_length|].
  eexists _, _. split; [apply generate_account_run|].
  cbn [account_at pwhash pwsalt password].
  split; [by rewrite length_fmap, length_seq|]. split; [done|].
  split; [apply length_draws|]. split; [done|].
  intros w. apply argon2id_kdf_run; [apply length_draws|done|done|].
  unfold BYTES_MIN, KEY_SIZE. lia.
Qed.


End Hashing.


Section Devices.
Context `{Sodium} `{Diceware}.


End Devices.


(** Each of the five device counts is produced by some entropy. *)
Lemma every_device_count_occurs (k : nat) :
  (1 ≤ k ≤ 5)%nat →
  ∀ (S : Sodium) (D : Diceware),
    ∃ a w1, generate_account (constant_world (Z.of_nat k - 1)) = (inr a, w1)
            ∧ length (devices a) = k.
Proof.
  intros Hk S D. eexists _, _. split; [apply generate_account_run|].
  cbn [account_at devices constant_world tape pos]. rewrite length_devices_at.
  rewrite Z.mod_small by lia. lia.
Qed.

Section Redaction.
Context `{Sodium} `{Diceware}.

Ltac eval_literals :=
  repeat match goal with
         | |- context [lit ?s] =>
             let v := eval vm_compute in (lit s) in change (lit s) with v
         end.

Lemma main_cmd_text a :
  main_cmd a
  = join [ lit "INSERT INTO iwkspc_main(wid,friendly_address,password,status) VALUES('";
           wid a; lit "','"; friendly_address a; lit "',$$"; pwhash_b85 a;
           lit "$$,'"; status a; lit "');" ].
Proof.
  unfold main_cmd. case_bool_decide as Hlen.
  - unfold join. eval_literals. cbn [app concat].
    rewrite ?app_nil_r, <- ?app_assoc. cbn [app]. reflexivity.
  - destruct (friendly_address a) as [|c fa]; [|cbn in Hlen; lia].
    unfold join. eval_literals. cbn [app concat].
    rewrite ?app_nil_r, <- ?app_assoc. cbn [app]. reflexivity.
Qed.







End Redaction.

Section Claims.
Context `{Sodium} `{Diceware}.









End Claims.

Section Generator.
Context `{Sodium} `{Diceware}.

Lemma pick_elem_of (l : list (list Z)) c : l ≠ [] → pick l c ∈ l.
Proof.
  intros Hl. unfold pick.
  assert (0 < length l)%nat by (destruct l; simpl; [done|lia]).
  pose proof (Z.mod_pos_bound c (Z.of_nat (length l)) ltac:(lia)).
  destruct (lookup_lt_is_Some_2 l (Z.to_nat (c `mod` Z.of_nat (length l)))) as [x Hx]; [lia|].
  rewrite Hx. by eapply list_elem_of_lookup_2.
Qed.

Lemma first_names_short : Forall (λ n, length n ≤ 8)%nat first_names.
Proof. apply (bool_decide_unpack _). vm_compute. exact I. Qed.

Lemma last_names_short : Forall (λ n, length n ≤ 9)%nat last_names.
Proof. apply (bool_decide_unpack _). vm_compute. exact I. Qed.

Lemma keypair_consistent purpose id t p :
  key_consistent (keypair_record purpose id (privkey_at t p)).
Proof. cbn. by rewrite length_draws. Qed.

Lemma secret_consistent purpose id t p :
  key_consistent (secret_record purpose id (draws t p 32 256)).
Proof. cbn. by rewrite length_draws. Qed.

Lemma devices_at_consistent t p n :
  Forall (λ d, key_consistent (dev_key d) ∧ key_purpose (dev_key d) = lit "identity")
         (devices_at t p n).
Proof.
  revert p. induction n as [|n IH]; intros p; [constructor|].
  cbn [devices_at]. constructor; [|apply IH].
  split; [apply keypair_consistent|reflexivity].
Qed.


(** The alias of a generated account: present for exactly the 50 of the
    100 outcomes of [randint(1, 100)] below 51, in which case it is
    "<first> <last>/example.com" with the two names taken from the two
    lists; it never has more than 30 characters, within the 48 of its
    column. *)
Theorem friendly_address_shape (w : world) :
  ∃ a w1,
    generate_account w = (inr a, w1)
    ∧ (if bool_decide (tape w (pos w + 16)%nat `mod` 100 < 50)
       then ∃ first last, first ∈ first_names ∧ last ∈ last_names
                          ∧ friendly_address a = join [first; lit " "; last; lit "/example.com"]
       else friendly_address a = [])
    ∧ (length (friendly_address a) ≤ 30)%nat.
Proof.
  eexists _, _. split; [apply generate_account_run|].
  cbn [account_at friendly_address]. unfold has_alias.
  assert (first_names ≠ []) as Hf by done. assert (last_names ≠ []) as Hl by done.
  set (first := pick first_names (tape w (pos w + 17)%nat)).
  set (last := pick last_names (tape w (pos w + 18)%nat)).
  assert (length first ≤ 8)%nat as Hlf.
  { pose proof first_names_short as Hs. rewrite Forall_forall in Hs.
    apply Hs, pick_elem_of, Hf. }
  assert (length last ≤ 9)%nat as Hll.
  { pose proof last_names_short as Hs. rewrite Forall_forall in Hs.
    apply Hs, pick_elem_of, Hl. }
  destruct (Z.ltb_spec (1 + tape w (pos w + 16)%nat `mod` 100) 51) as [Hlt|Hge].
  - rewrite bool_decide_eq_true_2 by lia. split.
    + exists first, last. split; [by apply pick_elem_of|]. split; [by apply pick_elem_of|done].
    + unfold join. cbn [concat]. rewrite !length_app.
      change (length (lit " ")) with 1%nat.
      change (length (lit "/example.com")) with 12%nat. cbn [length]. lia.
  - rewrite bool_decide_eq_false_2 by lia. split; [done|].
    change (length (lit "")) with 0%nat. lia.
Qed.


(** The key records of a generated account: six of them with the purposes
    identity, contact_request, firstdevice, broadcast, system and folder,
    in this order; three key pairs and three secret keys of 32 octets
    each; in every record, and in every device's key record, the public
    key is the one derived from the private key and the printable fields
    are the base-85 text of the raw ones. *)
Theorem key_records_consistent (w : world) :
  ∃ a w1,
    generate_account w = (inr a, w1)
    ∧ key_purpose <$> keys a
      = lit <$> [ "identity"; "contact_request"; "firstdevice";
                  "broadcast"; "system"; "folder" ]%string
    ∧ is_keypair <$> keys a = [true; true; true; false; false; false]
    ∧ Forall key_consistent (keys a)
    ∧ Forall (λ d, key_consistent (dev_key d) ∧ key_purpose (dev_key d) = lit "identity")
             (devices a).
Proof.
  eexists _, _. split; [apply generate_account_run|].
  split; [reflexivity|]. split; [reflexivity|]. split.
  - cbn [account_at keys].
    repeat (apply Forall_cons; split;
            [first [apply keypair_consistent|apply secret_consistent]|]).
    apply Forall_nil_2.
  - apply devices_at_consistent.
Qed.

End Generator.

Lemma quiet_ret {A} (a : A) : quiet (mret a : py A).
Proof. by intros w. Qed.

Lemma quiet_raise {A} e : quiet (raise e : py A).
Proof. by intros w. Qed.

Lemma quiet_bind {A B} (m : py A) (k : A → py B) :
  quiet m → (∀ a, quiet (k a)) → quiet (m ≫= k).
Proof.
  intros Hm Hk w. unfold mbind, py_bind, bind. specialize (Hm w).
  destruct (m w) as [[e|a] w']; cbn [snd] in Hm; subst w'; [done|apply Hk].
Qed.

Lemma bind_inv {A B} (m : py A) (k : A → py B) w b w' :
  (m ≫= k) w = (inr b, w') → ∃ a w1, m w = (inr a, w1) ∧ k a w1 = (inr b, w').
Proof.
  unfold mbind, py_bind, bind. destruct (m w) as [[e|a] w1]; [done|]. by exists a, w1.
Qed.

Lemma quiet_inv {A} (m : py A) w r w' : quiet m → m w = (r, w') → w' = w.
Proof. intros Hm Hw. specialize (Hm w). by rewrite Hw in Hm. Qed.

Lemma for_each_print (out : list (list Z * list Z)) w :
  for_each out (λ kv, print (join [kv.1; lit " : "; kv.2])) w
  = (inr (), World (tape w) (pos w) (db w) (stdout w ++ (dump_line <$> out))).
Proof.
  revert w. induction out as [|kv out IH]; intros w.
  - cbn [for_each fmap list_fmap]. rewrite app_nil_r. by destruct w.
  - cbn [for_each]. erewrite bind_run by reflexivity. cbv beta.
    rewrite IH. cbn [tape pos db stdout fmap list_fmap]. by rewrite <- app_assoc.
Qed.

Lemma dict_set_preserves (d : list (list Z * list Z)) k v k0 v0 :
  (k0, v0) ∈ d → k0 ≠ k → (k0, v0) ∈ dict_set d k v.
Proof.
  intros Hin Hne. induction d as [|kv d IH]; [by apply elem_of_nil in Hin|].
  cbn [dict_set]. apply elem_of_cons in Hin as [<-|Hin].
  - cbn [fst]. rewrite bool_decide_eq_false_2 by done. left.
  - case_bool_decide; right; [done|by apply IH].
Qed.

Lemma not_device_label (k0 : list Z) n suffix :
  head k0 ≠ Some 68 → k0 ≠ join [lit "Device #"; str_of_nat n; suffix].
Proof. intros Hhead ->. by apply Hhead. Qed.

Section Dump.
Context `{Sodium} `{Diceware}.

Lemma quiet_index {A} (l : list A) i : quiet (index l i).
Proof. intros w. unfold index. by destruct (l !! i). Qed.

Lemma quiet_get_public_b85 k : quiet (get_public_b85 k).
Proof. intros w. by destruct k. Qed.

Lemma quiet_get_private_b85 k : quiet (get_private_b85 k).
Proof. intros w. by destruct k. Qed.

Lemma quiet_get_key_b85 k : quiet (get_key_b85 k).
Proof. intros w. by destruct k. Qed.

Lemma quiet_dict_get d k : quiet (dict_get d k).
Proof. intros w. unfold dict_get. by destruct (list_find _ d) as [[]|]. Qed.

Lemma quiet_dump_device i d out : quiet (dump_device i d out).
Proof.
  unfold dump_device. apply quiet_bind; [apply quiet_get_public_b85|]. intros pb.
  apply quiet_bind; [apply quiet_get_private_b85|]. intros sb. apply quiet_ret.
Qed.

Lemma quiet_dump_devices i ds out : quiet (dump_devices i ds out).
Proof.
  revert i out. induction ds as [|d ds IH]; intros i out; [apply quiet_ret|].
  cbn [dump_devices]. apply quiet_bind; [apply quiet_dump_device|]. intros out'. apply IH.
Qed.

(** An entry whose label does not start with "D" survives the entries
    added for the devices. *)
Lemma dump_devices_preserves i ds out w out' w' k0 v0 :
  dump_devices i ds out w = (inr out', w') →
  (k0, v0) ∈ out → head k0 ≠ Some 68 → (k0, v0) ∈ out'.
Proof.
  revert i out w. induction ds as [|d ds IH]; intros i out w Hrun Hin Hhead.
  - cbn [dump_devices] in Hrun. unfold mret, py_ret, ret in Hrun. by injection Hrun as <- _.
  - cbn [dump_devices] in Hrun. apply bind_inv in Hrun as (out1 & w1 & Hd & Hrun).
    eapply IH; [exact Hrun| |done]. unfold dump_device in Hd.
    remember (join [lit "Device #"; str_of_nat (i + 1); lit " ID"]) as l1 eqn:E1.
    remember (join [lit "Device #"; str_of_nat (i + 1); lit " Public.b85"]) as l2 eqn:E2.
    remember (join [lit "Device #"; str_of_nat (i + 1); lit " Private.b85"]) as l3 eqn:E3.
    apply bind_inv in Hd as (pb & w2 & _ & Hd). apply bind_inv in Hd as (sb & w3 & _ & Hd).
    unfold mret, py_ret, ret in Hd. injection Hd as <- _.
    repeat (apply dict_set_preserves; [|subst; by apply not_device_label]). exact Hin.
Qed.

Lemma lit_inj s1 s2 : lit s1 = lit s2 → s1 = s2.
Proof.
  unfold lit. revert s2. induction s1 as [|c1 s1 IH]; intros [|c2 s2] Heq; try done.
  cbn [String.list_ascii_of_string fmap list_fmap] in Heq.
  injection Heq as Hc Hs. f_equal; [|by apply IH].
  apply Nat2Z.inj in Hc. rewrite <- (Ascii.ascii_nat_embedding c1), <- (Ascii.ascii_nat_embedding c2).
  by rewrite Hc.
Qed.

Lemma lit_app s1 s2 : lit (s1 +:+ s2) = lit s1 ++ lit s2.
Proof.
  unfold lit. induction s1 as [|c s1 IH]; [done|].
  change (String c s1 +:+ s2) with (String c (s1 +:+ s2)).
  cbn [String.list_ascii_of_string fmap list_fmap app]. f_equal. apply IH.
Qed.

Lemma pretty_N_go_no_space x s :
  Forall (λ c, c ≠ 32) (lit s) → Forall (λ c, c ≠ 32) (lit (pretty_N_go x s)).
Proof.
  revert s. induction (N.lt_wf_0 x) as [x _ IH]; intros s Hs.
  destruct (decide (x = 0)%N) as [->|Hx]; [by rewrite pretty_N_go_0|].
  rewrite pretty_N_go_step by lia. apply IH; [apply N.div_lt; lia|].
  change (String ?c s) with (String c "" +:+ s). rewrite lit_app.
  apply Forall_app. split; [|done]. unfold pretty_N_char.
  repeat case_match; by repeat constructor.
Qed.

Lemma str_of_nat_no_space n : Forall (λ c, c ≠ 32) (str_of_nat n).
Proof.
  unfold str_of_nat, pretty, pretty_nat, pretty, pretty_N.
  case_decide; [by repeat constructor|]. apply pretty_N_go_no_space. constructor.
Qed.

Lemma split_at_space (l1 l2 r1 r2 : list Z) :
  Forall (λ c, c ≠ 32) l1 → Forall (λ c, c ≠ 32) l2 →
  l1 ++ 32 :: r1 = l2 ++ 32 :: r2 → l1 = l2.
Proof.
  revert l2. induction l1 as [|c1 l1 IH]; intros [|c2 l2] H1 H2 Heq; try done.
  - injection Heq as Hc _. by inversion H2; subst.
  - injection Heq as Hc _. by inversion H1; subst.
  - injection Heq as -> Heq. f_equal. inversion H1; inversion H2; subst. by eapply IH.
Qed.

Lemma str_of_nat_inj n m : str_of_nat n = str_of_nat m → n = m.
Proof. unfold str_of_nat. intros Heq. by apply (inj pretty), lit_inj. Qed.

Lemma device_label_inj n m (s1 s2 : string) :
  head (lit s1) = Some 32 → head (lit s2) = Some 32 →
  device_label n s1 = device_label m s2 → n = m ∧ s1 = s2.
Proof.
  intros H1 H2 Heq. unfold device_label, join in Heq. cbn [concat] in Heq.
  apply app_inv_head in Heq. rewrite !app_nil_r in Heq.
  destruct (lit s1) as [|c1 r1] eqn:E1; [done|]. destruct (lit s2) as [|c2 r2] eqn:E2; [done|].
  cbn [head] in H1, H2. injection H1 as ->. injection H2 as ->.
  pose proof (split_at_space _ _ _ _ (str_of_nat_no_space n) (str_of_nat_no_space m) Heq) as Hn.
  rewrite Hn in Heq. apply app_inv_head in Heq. rewrite <- E1, <- E2 in Heq.
  split; [by apply str_of_nat_inj|by apply lit_inj].
Qed.

Lemma head_device_label n s : head (device_label n s) = Some 68.
Proof. reflexivity. Qed.

Lemma dict_set_fresh (d : list (list Z * list Z)) k v :
  k ∉ d.*1 → dict_set d k v = d ++ [(k, v)].
Proof.
  induction d as [|kv d IH]; intros Hk; [done|].
  cbn [dict_set app]. rewrite fmap_cons, not_elem_of_cons in Hk. destruct Hk as [Hne Hk].
  rewrite bool_decide_eq_false_2 by done. f_equal. by apply IH.
Qed.

Lemma dump_devices_run i ds out w out' w' :
  labels_below i out →
  dump_devices i ds out w = (inr out', w') →
  out' = out ++ device_entries i ds.
Proof.
  revert i out w. induction ds as [|d ds IH]; intros i out w Hout Hrun.
  - cbn [dump_devices] in Hrun. unfold mret, py_ret, ret in Hrun.
    injection Hrun as <- _. cbn [device_entries]. by rewrite app_nil_r.
  - cbn [dump_devices] in Hrun. apply bind_inv in Hrun as (out1 & w1 & Hd & Hrun).
    assert (out1 = out ++ [ (device_label (i + 1) " ID", dev_id d);
                            (device_label (i + 1) " Public.b85", public_b85_of (dev_key d));
                            (device_label (i + 1) " Private.b85", private_b85_of (dev_key d)) ])
      as ->.
    { unfold dump_device in Hd.
      change (join [lit "Device #"; str_of_nat (i + 1); lit " ID"])
        with (device_label (i + 1) " ID") in Hd.
      change (join [lit "Device #"; str_of_nat (i + 1); lit " Public.b85"])
        with (device_label (i + 1) " Public.b85") in Hd.
      change (join [lit "Device #"; str_of_nat (i + 1); lit " Private.b85"])
        with (device_label (i + 1) " Private.b85") in Hd.
      remember (device_label (i + 1) " ID") as l1 eqn:E1.
      remember (device_label (i + 1) " Public.b85") as l2 eqn:E2.
      remember (device_label (i + 1) " Private.b85") as l3 eqn:E3.
      destruct (dev_key d) as [ty pu id pk sk pb sb|ty pu id k kb]; [|done].
      cbn [get_public_b85 get_private_b85 public_b85_of private_b85_of] in Hd |- *.
      erewrite bind_run in Hd by reflexivity. erewrite bind_run in Hd by reflexivity.
      unfold mret, py_ret, ret in Hd. injection Hd as <- _.
      rewrite (dict_set_fresh out l1).
      2:{ subst l1. apply Hout; [lia|done]. }
      rewrite (dict_set_fresh _ l2).
      2:{ rewrite fmap_app, not_elem_of_app. split; [subst l2; apply Hout; [lia|done]|].
          cbn [fmap list_fmap fst]. rewrite list_elem_of_singleton. subst l1 l2.
          intros Heq. by apply device_label_inj in Heq as [_ ?]. }
      rewrite (dict_set_fresh _ l3).
      2:{ rewrite !fmap_app, !not_elem_of_app.
          split; [split|]; [subst l3; apply Hout; [lia|done]| |];
            cbn [fmap list_fmap fst]; rewrite list_elem_of_singleton; subst;
            intros Heq; by apply device_label_inj in Heq as [_ ?]. }
      by rewrite <- !app_assoc. }
    apply IH in Hrun.
    + rewrite Hrun. cbn [device_entries]. by rewrite <- app_assoc.
    + intros j s Hj Hs. rewrite fmap_app, not_elem_of_app. split; [apply Hout; [lia|done]|].
      cbn [fmap list_fmap fst]. rewrite !elem_of_cons, elem_of_nil.
      intros [Heq|[Heq|[Heq|[]]]]; apply device_label_inj in Heq as [? _]; done || lia.
Qed.

Lemma length_device_entries i ds : length (device_entries i ds) = (3 * length ds)%nat.
Proof.
  revert i. induction ds as [|d ds IH]; intros i; [done|].
  cbn [device_entries length app]. rewrite IH. lia.
Qed.

Lemma quiet_case {A B} (m : py A) (k : A → py B) w (P : (exn + B) * world → Prop) :
  quiet m → (∀ e, P (inl e, w)) → (∀ a, m w = (inr a, w) → P (k a w)) → P ((m ≫= k) w).
Proof.
  intros Hm He Ha. unfold mbind, py_bind, bind. pose proof (Hm w) as Hw.
  destruct (m w) as [[e|a] w1] eqn:E; cbn [snd] in Hw; subst w1; [apply He|by apply Ha].
Qed.

End Dump.

Section Printing.
Context `{Sodium} `{Diceware}.

Lemma index_inv {A} (l : list A) i x w w' : index l i w = (inr x, w') → l !! i = Some x.
Proof. unfold index. destruct (l !! i); [|done]. unfold mret, py_ret, ret. congruence. Qed.

Lemma get_public_b85_inv k v w w' :
  get_public_b85 k w = (inr v, w') → v = public_b85_of k ∧ is_keypair k = true.
Proof. destruct k; [|done]. cbn. unfold mret, py_ret, ret. by intros [= <- _]. Qed.

Lemma get_private_b85_inv k v w w' :
  get_private_b85 k w = (inr v, w') → v = private_b85_of k.
Proof. destruct k; [|done]. cbn. unfold mret, py_ret, ret. by intros [= <- _]. Qed.

Lemma get_key_b85_inv k v w w' :
  get_key_b85 k w = (inr v, w') → v = key_b85_of k ∧ is_keypair k = false.
Proof. destruct k; [done|]. cbn. unfold mret, py_ret, ret. by intros [= <- _]. Qed.

Lemma dict_get_inv d k v w w' : dict_get d k w = (inr v, w') → (lit k, v) ∈ d.
Proof.
  unfold dict_get. destruct (list_find _ d) as [[i kv]|] eqn:E; [|done].
  unfold mret, py_ret, ret. intros [= <- _]. apply list_find_Some in E as (Hi & Hk & _).
  apply list_elem_of_lookup_2 in Hi. destruct kv as [k' v']. cbn [fst snd] in *. by subst k'.
Qed.

Lemma account_entries_labels a k0 k1 k2 k3 k4 k5 m c cal t f at' so :
  labels_below 0 (account_entries a k0 k1 k2 k3 k4 k5 m c cal t f at' so).
Proof.
  intros j s _ _ Hin. cbn [account_entries fmap list_fmap fst] in Hin.
  assert (Forall (λ k, head k ≠ Some 68)
            (lit <$> [ "Workspace ID"; "Friendly Address"; "Status"; "Password";
                       "Password Salt.b85"; "Password Hash.b85"; "Identity Public.b85";
                       "Identity Private.b85"; "Contact Public.b85"; "Contact Private.b85";
                       "First Device Public.b85"; "First Device Private.b85"; "Broadcast.b85";
                       "System.b85"; "Folder Map.b85"; "Message Folder"; "Contacts Folder";
                       "Calendar Folder"; "Tasks Folder"; "Files Folder"; "Attachments Folder";
                       "Social Folder" ]%string)) as Hall.
  { apply (bool_decide_unpack _). vm_compute. exact I. }
  rewrite Forall_forall in Hall. apply Hall in Hin. apply Hin, head_device_label.
Qed.

Lemma dump_devices_keypairs i ds out w out' w' :
  dump_devices i ds out w = (inr out', w') →
  Forall (λ d, is_keypair (dev_key d) = true) ds.
Proof.
  revert i out w. induction ds as [|d ds IH]; intros i out w Hrun; [constructor|].
  cbn [dump_devices] in Hrun. apply bind_inv in Hrun as (out1 & w1 & Hd & Hrun).
  constructor; [|by eapply IH]. unfold dump_device in Hd.
  apply bind_inv in Hd as (pb & w2 & Hpb & _). by apply get_public_b85_inv in Hpb as [_ ?].
Qed.

Lemma dump_devices_returns i ds out w :
  Forall (λ d, is_keypair (dev_key d) = true) ds →
  ∃ out', dump_devices i ds out w = (inr out', w).
Proof.
  intros Hds. revert i out. induction Hds as [|d ds Hd _ IH]; intros i out; [by eexists|].
  cbn [dump_devices]. unfold dump_device. destruct (dev_key d); [|done].
  cbn [get_public_b85 get_private_b85].
  erewrite bind_run by reflexivity. apply IH.
Qed.

Lemma dict_get_returns d k w : lit k ∈ d.*1 → ∃ v, dict_get d k w = (inr v, w).
Proof.
  intros Hin. unfold dict_get. apply list_elem_of_fmap in Hin as ([k' v] & Hk & Hin).
  destruct (list_find_elem_of (λ kv : list Z * list Z, kv.1 = lit k) d (k', v) Hin)
    as [[i kv] ->]; [done|]. by eexists.
Qed.

Lemma lookup_device_entries j ds i d :
  ds !! i = Some d →
  device_entries j ds !! (3 * i)%nat = Some (device_label (j + i + 1) " ID", dev_id d)
  ∧ device_entries j ds !! (3 * i + 1)%nat
    = Some (device_label (j + i + 1) " Public.b85", public_b85_of (dev_key d))
  ∧ device_entries j ds !! (3 * i + 2)%nat
    = Some (device_label (j + i + 1) " Private.b85", private_b85_of (dev_key d)).
Proof.
  revert j i. induction ds as [|d0 ds IH]; intros j i Hi; [done|].
  destruct i as [|i].
  - injection Hi as ->. rewrite Nat.add_0_r. by cbn.
  - cbn [lookup list_lookup] in Hi. apply (IH (S j)) in Hi.
    replace (S j + i + 1)%nat with (j + S i + 1)%nat in Hi by lia.
    replace (3 * S i)%nat with (S (S (S (3 * i)))) by lia.
    cbn [device_entries app]. exact Hi.
Qed.

Lemma take_6_lookups {A} (l : list A) x0 x1 x2 x3 x4 x5 :
  l !! 0%nat = Some x0 → l !! 1%nat = Some x1 → l !! 2%nat = Some x2 →
  l !! 3%nat = Some x3 → l !! 4%nat = Some x4 → l !! 5%nat = Some x5 →
  take 6 l = [x0; x1; x2; x3; x4; x5].
Proof.
  destruct l as [|y0 [|y1 [|y2 [|y3 [|y4 [|y5 l]]]]]]; try done.
  intros. by simplify_eq/=.
Qed.

Lemma dump_account_outcome a w : dumped a w (dump_account a w).
Proof.
  unfold dump_account.
  repeat (apply quiet_case;
          [first [apply quiet_index|apply quiet_get_public_b85|apply quiet_get_private_b85
                 |apply quiet_get_key_b85|apply quiet_dict_get|apply quiet_dump_devices]
          |done|intros ? ?]).
  repeat match goal with
         | Hx : index _ _ _ = _ |- _ => apply index_inv in Hx
         | Hx : get_public_b85 _ _ = _ |- _ => apply get_public_b85_inv in Hx as [-> ?]
         | Hx : get_private_b85 _ _ = _ |- _ => apply get_private_b85_inv in Hx as ->
         | Hx : get_key_b85 _ _ = _ |- _ => apply get_key_b85_inv in Hx as [-> ?]
         | Hx : dict_get _ _ _ = _ |- _ => apply dict_get_inv in Hx
         end.
  simplify_eq.
  match goal with
  | Hx : dump_devices _ _ _ _ = _ |- _ =>
      pose proof (dump_devices_keypairs _ _ _ _ _ _ Hx) as Hds;
      apply dump_devices_run in Hx; [subst|apply account_entries_labels]
  end.
  erewrite bind_run by apply for_each_print. unfold print, dumped.
  cbn [tape pos db stdout]. eexists _, _, _, _, _, _, _, _, _, _, _, _, _.
  split; [by apply take_6_lookups|]. split; [|by rewrite <- app_assoc].
  split; [|split; [|exact Hds]].
  - erewrite take_6_lookups by done. cbn [fmap list_fmap]. congruence.
  - unfold folder_names. repeat (apply Forall_cons; split;
      [apply list_elem_of_fmap; eexists (_, _); split; [reflexivity|eassumption]|]).
    apply Forall_nil_2.
Qed.

Lemma lookup_printed (old : list (list Z)) (entries : list (list Z * list Z)) i e :
  entries !! i = Some e →
  (old ++ (dump_line <$> entries) ++ [lit ""]) !! (length old + i)%nat = Some (dump_line e).
Proof.
  intros Hi. rewrite lookup_app_r by lia.
  replace (length old + i - length old)%nat with i by lia.
  rewrite lookup_app_l by (rewrite length_fmap; by eapply lookup_lt_Some).
  by rewrite list_lookup_fmap, Hi.
Qed.

Lemma dump_account_run a w :
  dumpable a → ∃ w', dump_account a w = (inr (), w').
Proof.
  intros (Hkeys & Hfolders & Hdevices).
  destruct (keys a) as [|k0 [|k1 [|k2 [|k3 [|k4 [|k5 ks]]]]]] eqn:Ekeys; try done.
  cbn [take fmap list_fmap] in Hkeys.
  destruct k0; try done. destruct k1; try done. destruct k2; try done.
  destruct k3; try done. destruct k4; try done. destruct k5; try done.
  unfold folder_names in Hfolders. rewrite !Forall_cons in Hfolders.
  destruct Hfolders as (Hm & Hc & Hcal & Ht & Hf & Hat & Hso & _).
  unfold dump_account. rewrite Ekeys.
  do 18 (erewrite bind_run by reflexivity).
  destruct (dict_get_returns _ _ w Hm) as [? Hv]; erewrite bind_run by exact Hv; clear Hv.
  destruct (dict_get_returns _ _ w Hc) as [? Hv]; erewrite bind_run by exact Hv; clear Hv.
  destruct (dict_get_returns _ _ w Hcal) as [? Hv]; erewrite bind_run by exact Hv; clear Hv.
  destruct (dict_get_returns _ _ w Ht) as [? Hv]; erewrite bind_run by exact Hv; clear Hv.
  destruct (dict_get_returns _ _ w Hf) as [? Hv]; erewrite bind_run by exact Hv; clear Hv.
  destruct (dict_get_returns _ _ w Hat) as [? Hv]; erewrite bind_run by exact Hv; clear Hv.
  destruct (dict_get_returns _ _ w Hso) as [? Hv]; erewrite bind_run by exact Hv; clear Hv.
  match goal with
  | |- context [dump_devices 0 (devices a) ?out] =>
      destruct (dump_devices_returns 0 (devices a) out w Hdevices) as [? Hrun]
  end.
  erewrite bind_run by exact Hrun. erewrite bind_run by apply for_each_print.
  by eexists.
Qed.

(** [dump_account] prints all or nothing.  When it raises, nothing has
    been printed and the world is as before; when it returns, it has read
    no entropy and left the database session alone, and has printed 22
    lines for the account, three for each device and one empty line: the
    labels of the devices never overwrite an entry. *)
Theorem dump_account_all_or_nothing (a : account) (w : world) :
  match dump_account a w with
  | (inl _, w') => w' = w
  | (inr _, w') =>
      tape w' = tape w ∧ pos w' = pos w ∧ db w' = db w
      ∧ ∃ lines, stdout w' = stdout w ++ lines ++ [lit ""]
                 ∧ length lines = (22 + 3 * length (devices a))%nat
  end.
Proof.
  pose proof (dump_account_outcome a w) as Hout. unfold dumped in Hout.
  destruct (dump_account a w) as [[e|[]] w']; [done|].
  destruct Hout as (k0 & k1 & k2 & k3 & k4 & k5 & m & c & cal & t & f & at' & so & _ & _ & ->).
  cbn [tape pos db stdout]. do 3 (split; [done|]). eexists. split; [done|].
  rewrite length_fmap, length_app, length_device_entries. cbn [account_entries length]. lia.
Qed.

(** What [dump_account] shows of the secrets.  For an account it can
    print, it returns, and the fourth line it printed is the password in
    plain text, the eighth, tenth and twelfth are the private keys of the
    first three key records, the thirteenth to fifteenth the three secret
    keys, and the third line of every device is the private key of that
    device. *)
Theorem dump_account_prints_secrets (a : account) (w : world) :
  dumpable a →
  ∃ w' k0 k1 k2 k3 k4 k5,
    dump_account a w = (inr (), w')
    ∧ take 6 (keys a) = [k0; k1; k2; k3; k4; k5]
    ∧ let line (i : nat) := stdout w' !! (length (stdout w) + i)%nat in
      line 3%nat = Some (dump_line (lit "Password", password a))
      ∧ line 7%nat = Some (dump_line (lit "Identity Private.b85", private_b85_of k0))
      ∧ line 9%nat = Some (dump_line (lit "Contact Private.b85", private_b85_of k1))
      ∧ line 11%nat = Some (dump_line (lit "First Device Private.b85", private_b85_of k2))
      ∧ line 12%nat = Some (dump_line (lit "Broadcast.b85", key_b85_of k3))
      ∧ line 13%nat = Some (dump_line (lit "System.b85", key_b85_of k4))
      ∧ line 14%nat = Some (dump_line (lit "Folder Map.b85", key_b85_of k5))
      ∧ ∀ i d, devices a !! i = Some d →
               line (22 + 3 * i + 2)%nat
               = Some (dump_line (device_label (i + 1) " Private.b85",
                                  private_b85_of (dev_key d))).
Proof.
  intros Ha. destruct (dump_account_run a w Ha) as [w' Hrun].
  pose proof (dump_account_outcome a w) as Hout. rewrite Hrun in Hout.
  unfold dumped in Hout.
  destruct Hout as (k0 & k1 & k2 & k3 & k4 & k5 & m & c & cal & t & f & at' & so
                    & Hkeys & _ & ->).
  eexists _, k0, k1, k2, k3, k4, k5. split; [exact Hrun|]. split; [done|].
  cbv zeta. cbn [stdout]. do 7 (split; [by apply lookup_printed|]).
  intros i d Hi.
  apply lookup_printed. rewrite lookup_app_r by (cbn [account_entries length]; lia).
  cbn [account_entries length].
  replace (22 + 3 * i + 2 - 22)%nat with (3 * i + 2)%nat by lia.
  by apply (lookup_device_entries 0) in Hi as (_ & _ & ->).
Qed.

(** [dump_account] returns exactly for the accounts with six key records,
    the first three key pairs and the next three secret keys, the seven
    folder names in the folder map and a key pair in every device; for
    every other account it raises. *)
Theorem dump_account_returns_iff (a : account) (w : world) :
  (∃ w', dump_account a w = (inr (), w')) ↔ dumpable a.
Proof.
  split; [|apply dump_account_run].
  intros [w' Hrun]. pose proof (dump_account_outcome a w) as Hout.
  rewrite Hrun in Hout. unfold dumped in Hout.
  by destruct Hout as (? & ? & ? & ? & ? & ? & ? & ? & ? & ? & ? & ? & ? & _ & ? & _).
Qed.

Lemma account_at_dumpable t p : dumpable (account_at t p).
Proof.
  split; [reflexivity|]. split.
  - apply (bool_decide_unpack _). vm_compute. exact I.
  - apply keypairs_devices_at.
Qed.

Lemma dump_account_at t p w :
  ∃ lines,
    dump_account (account_at t p) w
    = (inr (), World (tape w) (pos w) (db w) (stdout w ++ lines))
    ∧ (26 ≤ length lines ≤ 38)%nat.
Proof.
  set (a := account_at t p).
  destruct (dump_account_run a w (account_at_dumpable t p)) as [w2 Hrun].
  pose proof (dump_account_outcome a w) as Hout. rewrite Hrun in Hout. unfold dumped in Hout.
  destruct Hout as (k0 & k1 & k2 & k3 & k4 & k5 & m & c & cal & t' & f & at' & so & _ & _ & ->).
  eexists. split; [exact Hrun|].
  rewrite length_app, length_fmap, length_app, length_device_entries.
  subst a. cbn [account_entries account_at devices length]. rewrite length_devices_at.
  pose proof (device_count_bounds (t (salt_pos t p + 621)%nat)). lia.
Qed.

(** Every account [generate_account] makes can be printed: the dump of a
    generated account never raises, and prints between 26 and 38 lines. *)
Theorem generated_account_dumps (w0 : world) :
  ∃ a w1 lines,
    generate_account w0 = (inr a, w1)
    ∧ dump_account a w1
      = (inr (), World (tape w1) (pos w1) (db w1) (stdout w1 ++ lines))
    ∧ (26 ≤ length lines ≤ 38)%nat.
Proof.
  eexists _, _. setoid_rewrite generate_account_run. cbv zeta.
  set (w1 := World _ _ _ _).
  destruct (dump_account_at (tape w0) (pos w0) w1) as (lines & Hrun & Hlen).
  exists lines. split; [done|]. split; [exact Hrun|exact Hlen].
Qed.

End Printing.

Lemma lex_from_app st cs1 cs2 :
  lex_from st (cs1 ++ cs2)
  = '(st', ts) ← lex_run st cs1; rest ← lex_from st' cs2; Some (ts ++ rest).
Proof.
  revert st. induction cs1 as [|c cs1 IH]; intros st.
  - cbn [app lex_run]. cbn. by destruct (lex_from st cs2).
  - cbn [app lex_from lex_run]. destruct (lex_step st c) as [[st1 ts1]|]; [|done].
    cbn. rewrite IH. destruct (lex_run st1 cs1) as [[st2 ts2]|]; [|done].
    cbn. destruct (lex_from st2 cs2) as [rest|]; [|done]. cbn. by rewrite app_assoc.
Qed.

Lemma lex_run_quote acc s : 39 ∉ s → lex_run (LQuote acc) s = Some (LQuote (acc ++ s), []).
Proof.
  revert acc. induction s as [|c s IH]; intros acc Hs.
  - cbn. by rewrite app_nil_r.
  - apply not_elem_of_cons in Hs as [Hc Hs]. cbn [lex_run lex_step].
    destruct (Z.eqb_spec c 39) as [->|_]; [done|]. cbn. rewrite IH by done.
    cbn. by rewrite <- app_assoc.
Qed.

Lemma lex_run_dollar acc s : 36 ∉ s → lex_run (LDollar acc) s = Some (LDollar (acc ++ s), []).
Proof.
  revert acc. induction s as [|c s IH]; intros acc Hs.
  - cbn. by rewrite app_nil_r.
  - apply not_elem_of_cons in Hs as [Hc Hs]. cbn [lex_run lex_step].
    destruct (Z.eqb_spec c 36) as [->|_]; [done|]. cbn. rewrite IH by done.
    cbn. by rewrite <- app_assoc.
Qed.

Lemma lex_quoted acc s rest :
  39 ∉ s → lex_from (LQuote acc) (s ++ rest) = lex_from (LQuote (acc ++ s)) rest.
Proof.
  intros Hs. rewrite lex_from_app, lex_run_quote by done. cbn.
  by destruct (lex_from _ rest).
Qed.

Lemma lex_dollar_quoted acc s rest :
  36 ∉ s → lex_from (LDollar acc) (s ++ rest) = lex_from (LDollar (acc ++ s)) rest.
Proof.
  intros Hs. rewrite lex_from_app, lex_run_dollar by done. cbn.
  by destruct (lex_from _ rest).
Qed.

Lemma lex_literal st (s : string) st' ts rest :
  lex_run st (lit s) = Some (st', ts) →
  lex_from st (lit s ++ rest) = (λ r, ts ++ r) <$> lex_from st' rest.
Proof. intros Hrun. rewrite lex_from_app, Hrun. cbn. by destruct (lex_from st' rest). Qed.

Lemma lex_run_quote_quote acc :
  lex_run (LQuote acc) (lit "','") = Some (LQuote [], [TString acc; TComma]).
Proof. reflexivity. Qed.

Lemma lex_run_quote_dollar acc :
  lex_run (LQuote acc) (lit "',$$") = Some (LDollar [], [TString acc; TComma]).
Proof. reflexivity. Qed.

Lemma lex_run_dollar_quote acc :
  lex_run (LDollar acc) (lit "$$,'") = Some (LQuote [], [TString acc; TComma]).
Proof. reflexivity. Qed.

Lemma lex_from_quote_close acc :
  lex_from (LQuote acc) (lit "');") = Some [TString acc; TRParen; TSemi].
Proof. reflexivity. Qed.

Lemma lex_from_dollar_close acc :
  lex_from (LDollar acc) (lit "$$);") = Some [TString acc; TRParen; TSemi].
Proof. reflexivity. Qed.

Lemma lex_main_cmd a :
  39 ∉ wid a → 39 ∉ friendly_address a → 36 ∉ pwhash_b85 a → 39 ∉ status a →
  lex (main_cmd a) ≫= parse
  = Some (InsertInto (lit "iwkspc_main")
            [lit "wid"; lit "friendly_address"; lit "password"; lit "status"]
            [wid a; friendly_address a; pwhash_b85 a; status a]).
Proof.
  intros Hw Hf Hp Hs. rewrite main_cmd_text. unfold lex, join. cbn [concat].
  rewrite app_nil_r.
  erewrite lex_literal by (vm_compute; reflexivity).
  rewrite lex_quoted by done. erewrite lex_literal by apply lex_run_quote_quote.
  rewrite lex_quoted by done. erewrite lex_literal by apply lex_run_quote_dollar.
  rewrite lex_dollar_quoted by done. erewrite lex_literal by apply lex_run_dollar_quote.
  rewrite lex_quoted by done. rewrite lex_from_quote_close.
  cbn [fmap option_fmap option_map app mbind option_bind]. reflexivity.
Qed.

Lemma lex_folder_cmd wid fid enc_name enc_key :
  39 ∉ wid → 39 ∉ fid → 39 ∉ enc_name → 36 ∉ enc_key →
  lex (folder_cmd wid fid enc_name enc_key) ≫= parse
  = Some (InsertInto (lit "iwkspc_folders")
            [lit "wid"; lit "fid"; lit "enc_name"; lit "enc_key"]
            [wid; fid; enc_name; enc_key]).
Proof.
  intros Hw Hf Hn Hk. unfold folder_cmd, lex, join. cbn [concat]. rewrite app_nil_r.
  erewrite lex_literal by (vm_compute; reflexivity).
  erewrite lex_literal by (vm_compute; reflexivity).
  rewrite lex_quoted by done. erewrite lex_literal by apply lex_run_quote_quote.
  rewrite lex_quoted by done. erewrite lex_literal by apply lex_run_quote_quote.
  rewrite lex_quoted by done. erewrite lex_literal by apply lex_run_quote_dollar.
  rewrite lex_dollar_quoted by done. rewrite lex_from_dollar_close.
  cbn [fmap option_fmap option_map app mbind option_bind]. reflexivity.
Qed.

Lemma lex_session_cmd wid devid device_key :
  39 ∉ wid → 39 ∉ devid → 36 ∉ device_key →
  lex (session_cmd wid devid device_key) ≫= parse
  = Some (InsertInto (lit "iwkspc_sessions")
            [lit "wid"; lit "devid"; lit "device_key"]
            [wid; devid; device_key]).
Proof.
  intros Hw Hd Hk. unfold session_cmd, lex, join. cbn [concat]. rewrite app_nil_r.
  erewrite lex_literal by (vm_compute; reflexivity).
  erewrite lex_literal by (vm_compute; reflexivity).
  rewrite lex_quoted by done. erewrite lex_literal by apply lex_run_quote_quote.
  rewrite lex_quoted by done. erewrite lex_literal by apply lex_run_quote_dollar.
  rewrite lex_dollar_quoted by done. rewrite lex_from_dollar_close.
  cbn [fmap option_fmap option_map app mbind option_bind]. reflexivity.
Qed.

Lemma store_column_serial serial given n nn :
  (list_to_map given : gmap (list Z) (list Z)) !! n = None →
  store_column serial given (Column n Serial nn) = inr (VInt serial).
Proof. intros Hn. unfold store_column. cbn [col_name col_type]. by rewrite Hn. Qed.

Lemma store_column_char serial given n k nn s :
  (list_to_map given : gmap (list Z) (list Z)) !! n = Some s → (length s ≤ k)%nat →
  store_column serial given (Column n (Char k) nn)
  = inr (VText (s ++ replicate (k - length s) 32)).
Proof.
  intros Hn Hs. unfold store_column. cbn [col_name col_type]. rewrite Hn.
  by rewrite bool_decide_eq_true_2.
Qed.

Lemma store_column_varchar serial given n k nn s :
  (list_to_map given : gmap (list Z) (list Z)) !! n = Some s → (length s ≤ k)%nat →
  store_column serial given (Column n (Varchar k) nn) = inr (VText s).
Proof.
  intros Hn Hs. unfold store_column. cbn [col_name col_type]. rewrite Hn.
  by rewrite bool_decide_eq_true_2.
Qed.

Lemma has_schema_append_row name row d : has_schema d → has_schema (append_row name row d).
Proof.
  unfold has_schema, append_row. intros Hd. destruct (d !! lit name) as [t|] eqn:Ht; [|done].
  rewrite fmap_insert. cbn [tbl_columns]. rewrite insert_id; [done|].
  by rewrite lookup_fmap, Ht.
Qed.

Lemma has_schema_lookup d (name : string) cols :
  has_schema d → (tbl_columns <$> fresh_schema) !! lit name = Some cols →
  ∃ t, d !! lit name = Some t ∧ tbl_columns t = cols.
Proof.
  unfold has_schema. intros Hd Hcols. rewrite <- Hd, lookup_fmap in Hcols.
  destruct (d !! lit name) as [t|]; [|done]. exists t. split; [done|].
  cbn in Hcols. congruence.
Qed.

Ltac find_no_undefined :=
  match goal with
  | |- context [list_find ?P ?l] =>
      assert (list_find P l = None) as -> by (vm_compute; reflexivity)
  end.

Lemma main_insert_run a d :
  has_schema d →
  39 ∉ wid a → 39 ∉ friendly_address a → 36 ∉ pwhash_b85 a → 39 ∉ status a →
  (length (wid a) ≤ 36)%nat → (length (friendly_address a) ≤ 48)%nat →
  (length (pwhash_b85 a) ≤ 128)%nat → (length (status a) ≤ 16)%nat →
  pg_execute (main_cmd a) d = inr (append_row "iwkspc_main" (main_row a) d).
Proof.
  intros Hd Hw Hf Hp Hs Lw Lf Lp Ls. unfold pg_execute. rewrite lex_main_cmd by done.
  eapply (has_schema_lookup _ "iwkspc_main") in Hd as (t & Ht & Hcols); [|vm_compute; reflexivity].
  unfold append_row. cbn [run_stmt]. rewrite Ht. cbn [length].
  rewrite bool_decide_eq_true_2 by done. cbn [negb]. rewrite Hcols.
  find_no_undefined. cbn [store_row].
  rewrite store_column_serial by (vm_compute; reflexivity).
  erewrite store_column_char; [|vm_compute; reflexivity|done].
  erewrite store_column_varchar; [|vm_compute; reflexivity|done].
  erewrite store_column_varchar; [|vm_compute; reflexivity|done].
  erewrite store_column_varchar; [|vm_compute; reflexivity|done].
  reflexivity.
Qed.

Lemma folder_insert_run wid fid enc_name enc_key d :
  has_schema d →
  39 ∉ wid → 39 ∉ fid → 39 ∉ enc_name → 36 ∉ enc_key →
  (length wid ≤ 36)%nat → (length fid ≤ 36)%nat →
  (length enc_name ≤ 128)%nat → (length enc_key ≤ 64)%nat →
  pg_execute (folder_cmd wid fid enc_name enc_key) d
  = inr (append_row "iwkspc_folders" (folder_row wid fid enc_name enc_key) d).
Proof.
  intros Hd Hw Hf Hn Hk Lw Lf Ln Lk. unfold pg_execute. rewrite lex_folder_cmd by done.
  eapply (has_schema_lookup _ "iwkspc_folders") in Hd as (t & Ht & Hcols); [|vm_compute; reflexivity].
  unfold append_row. cbn [run_stmt]. rewrite Ht. cbn [length].
  rewrite bool_decide_eq_true_2 by done. cbn [negb]. rewrite Hcols.
  find_no_undefined. cbn [store_row].
  rewrite store_column_serial by (vm_compute; reflexivity).
  erewrite store_column_char; [|vm_compute; reflexivity|done].
  erewrite store_column_char; [|vm_compute; reflexivity|done].
  erewrite store_column_varchar; [|vm_compute; reflexivity|done].
  erewrite store_column_varchar; [|vm_compute; reflexivity|done].
  reflexivity.
Qed.

Lemma session_insert_run wid devid device_key d :
  has_schema d →
  39 ∉ wid → 39 ∉ devid → 36 ∉ device_key →
  (length wid ≤ 36)%nat → (length devid ≤ 36)%nat → (length device_key ≤ 128)%nat →
  pg_execute (session_cmd wid devid device_key) d
  = inr (append_row "iwkspc_sessions" (session_row wid devid device_key) d).
Proof.
  intros Hd Hw Hi Hk Lw Li Lk. unfold pg_execute. rewrite lex_session_cmd by done.
  eapply (has_schema_lookup _ "iwkspc_sessions") in Hd as (t & Ht & Hcols); [|vm_compute; reflexivity].
  unfold append_row. cbn [run_stmt]. rewrite Ht. cbn [length].
  rewrite bool_decide_eq_true_2 by done. cbn [negb]. rewrite Hcols.
  find_no_undefined. cbn [store_row].
  rewrite store_column_serial by (vm_compute; reflexivity).
  erewrite store_column_char; [|vm_compute; reflexivity|done].
  erewrite store_column_char; [|vm_compute; reflexivity|done].
  erewrite store_column_varchar; [|vm_compute; reflexivity|done].
  reflexivity.
Qed.

Section Stored.
Context `{Sodium} `{Diceware}.

Lemma b85char_not_quote d : b85char d ≠ 39.
Proof.
  unfold b85char. destruct (b85alphabet !! Z.to_nat d) as [c|] eqn:Hc; [|done].
  apply list_elem_of_lookup_2 in Hc. cbn. intros ->. revert Hc.
  apply (bool_decide_unpack _). vm_compute. exact I.
Qed.

Lemma b85word_no_quote b0 b1 b2 b3 : Forall (λ c, c ≠ 39) (b85word b0 b1 b2 b3).
Proof. unfold b85word. repeat constructor; apply b85char_not_quote. Qed.

Lemma b85encode_no_quote b : 39 ∉ b85encode b.
Proof.
  assert (∀ n b, (length b ≤ n)%nat → Forall (λ c, c ≠ 39) (b85encode b)) as Hall.
  { clear b. induction n as [|n IH]; intros b Hb.
    - destruct b; [constructor|cbn in Hb; lia].
    - destruct b as [|b0 [|b1 [|b2 [|b3 rest]]]]; cbn [b85encode].
      + constructor.
      + apply Forall_take, b85word_no_quote.
      + apply Forall_take, b85word_no_quote.
      + apply Forall_take, b85word_no_quote.
      + apply Forall_app. split; [apply b85word_no_quote|].
        apply IH. cbn [length] in Hb. lia. }
  specialize (Hall (length b) b (le_n _)).
  rewrite Forall_forall in Hall. intros Hin. by apply Hall in Hin.
Qed.

Lemma length_enc_names key t p l : length (enc_names key t p l) = length l.
Proof.
  revert p. induction l as [|[folder_name fid] l IH]; intros p; [done|].
  cbn [enc_names length]. by rewrite IH.
Qed.

Lemma has_schema_append_rows name rows d :
  has_schema d → has_schema (append_rows name rows d).
Proof.
  unfold append_rows. revert d. induction rows as [|r rows IH]; intros d Hd; [done|].
  cbn [foldl]. by apply IH, has_schema_append_row.
Qed.

Lemma pg_run_folders a key keyid t p l d :
  has_schema d → quotable 36 (wid a) → dollar_quotable 64 keyid →
  Forall (quotable 36) l.*2 →
  Forall (λ n, length n ≤ 128)%nat (enc_names key t p l) →
  pg_run (folder_cmds a key keyid t p l) d
  = inr (append_rows "iwkspc_folders"
           (zip_with (λ kv enc_name, folder_row (wid a) kv.2 enc_name keyid)
                     l (enc_names key t p l)) d).
Proof.
  intros Hd [Hw Lw] [Hk Lk]. revert p d Hd.
  induction l as [|[folder_name fid] l IH]; intros p d Hd Hfids Hnames; [done|].
  cbn [folder_cmds enc_names pg_run zip_with] in *.
  apply Forall_cons in Hfids as [[Hf Lf] Hfids]. apply Forall_cons in Hnames as [Ln Hnames].
  rewrite folder_insert_run; [|done|done|done|apply b85encode_no_quote|done..].
  unfold append_rows. cbn [foldl snd]. apply IH; [|done..].
  by apply has_schema_append_row.
Qed.

Lemma pg_run_sessions a (l : list device) d :
  has_schema d → quotable 36 (wid a) →
  Forall (λ d, quotable 36 (dev_id d) ∧ dollar_quotable 128 (public_b85_of (dev_key d))) l →
  pg_run ((λ d, session_cmd (wid a) (dev_id d) (public_b85_of (dev_key d))) <$> l) d
  = inr (append_rows "iwkspc_sessions"
           ((λ d, session_row (wid a) (dev_id d) (public_b85_of (dev_key d))) <$> l) d).
Proof.
  intros Hd [Hw Lw] Hl. revert d Hd.
  induction Hl as [|dev l [[Hi Li] [Hk Lk]] Hl IH]; intros d Hd; [done|].
  cbn [fmap list_fmap pg_run]. rewrite session_insert_run by done.
  unfold append_rows. cbn [foldl]. apply IH. by apply has_schema_append_row.
Qed.

Lemma pg_run_account a key keyid t p d :
  has_schema d → storable a key keyid t p →
  pg_run (account_cmds a key keyid t p) d = inr (stored a key keyid t p d).
Proof.
  intros Hd (Hw & Hf & Hp & Hs & Hk & Hfids & Hnames & Hdevs).
  unfold account_cmds, stored. cbn [pg_run].
  rewrite main_insert_run; [|done|apply Hw|apply Hf|apply Hp|apply Hs
                             |apply Hw|apply Hf|apply Hp|apply Hs].
  pose proof (has_schema_append_row "iwkspc_main" (main_row a) d Hd) as Hd1.
  rewrite pg_run_app, pg_run_folders by done.
  apply pg_run_sessions; [|done..]. by apply has_schema_append_rows.
Qed.

(** [add_account_to_db] on the tables [reset_database] made.  For an
    account of the expected shape whose values can be carried by the
    commands as they are written -- no ['] in the values put between
    single quotes, no [$] in those put between [$$], each within the size
    of its column -- the call returns and commits exactly: one row of
    iwkspc_main holding the workspace id, the alias (the empty string when
    there is none, not NULL), the base-85 text of the password hash in the
    password column and the status; one row of iwkspc_folders for each
    folder, with the folder id before the workspace id; one row of
    iwkspc_sessions for each device.  It reads 24 cells of entropy for
    each folder and prints nothing. *)
Theorem add_account_to_db_stores (a : account) (key keyid : list Z) (w : world) :
  writable a key keyid →
  storable a key keyid (tape w) (pos w) →
  txn_state (db w) ≠ Aborted →
  has_schema (working (db w)) →
  add_account_to_db a w
  = (inr (), World (tape w) (pos w + NONCE_SIZE * length (folder_map a))
                   (Connection (stored a key keyid (tape w) (pos w) (working (db w))) Idle)
                   (stdout w)).
Proof.
  intros Hwritable Hstorable Htxn Hschema.
  pose proof (add_account_to_db_working a key keyid w Hwritable Htxn) as Hrun.
  by rewrite pg_run_account in Hrun.
Qed.

End Stored.

Lemma example_account_dumpable : dumpable example_account.
Proof.
  split; [reflexivity|]. split.
  - apply (bool_decide_unpack _). vm_compute. exact I.
  - apply (bool_decide_unpack _). vm_compute. exact I.
Defined.

Lemma dump_account_prints_secrets_witness :
  dumpable example_account
  ∧ ∃ w', dump_account example_account example_world = (inr (), w')
          ∧ stdout w' !! 3%nat = Some (lit "Password : CorrectHorseBattery").
Proof.
  split; [exact example_account_dumpable|].
  destruct (dump_account_prints_secrets example_account example_world
              example_account_dumpable)
    as (w' & k0 & k1 & k2 & k3 & k4 & k5 & Hrun & _ & Hpassword & _).
  exists w'. split; [exact Hrun|exact Hpassword].
Defined.

Lemma example_account_writable :
  writable example_account (replicate 32 8) (lit "key-5").
Proof.
  split; [eexists _, _, _; reflexivity|]. split; [reflexivity|]. split.
  - apply (bool_decide_unpack _). vm_compute. exact I.
  - apply (bool_decide_unpack _). vm_compute. exact I.
Defined.

Lemma example_account_storable :
  @storable example_sodium example_account (replicate 32 8) (lit "key-5") Z.of_nat 0.
Proof.
  unfold storable, quotable, dollar_quotable.
  apply (bool_decide_unpack _). vm_compute. exact I.
Defined.

Lemma add_account_to_db_stores_witness :
  @add_account_to_db example_sodium example_account example_world
  = (inr (),
     World Z.of_nat 168
           (Connection
              (@stored example_sodium example_account (replicate 32 8) (lit "key-5")
                       Z.of_nat 0 fresh_schema) Idle) []).
Proof.
  apply (@add_account_to_db_stores example_sodium example_account
           (replicate 32 8) (lit "key-5") example_world).
  - exact example_account_writable.
  - exact example_account_storable.
  - discriminate.
  - reflexivity.
Defined.

Section Leftover.
Context `{Sodium} `{Diceware}.

Lemma add_account_to_db_bad_key_run a e w d1 :
  folder_key_error a = Some e → txn_state (db w) ≠ Aborted →
  pg_execute (main_cmd a) (working (db w)) = inr d1 →
  add_account_to_db a w = (inl e, in_txn (committed (db w)) d1 w).
Proof.
  intros He Htxn Hmain. unfold add_account_to_db, dbconn_cursor.
  erewrite bind_run by reflexivity. cbv beta.
  pose proof (cursor_execute_working (main_cmd a) w Htxn) as Hexec.
  rewrite Hmain in Hexec. erewrite bind_run by exact Hexec. cbv beta.
  unfold folder_key_error in He. unfold in_txn.
  destruct (keys a !! 5%nat) as [[ty pu id pk sk pb sb|ty pu id key b85]|] eqn:Hk5.
  - injection He as <-. erewrite bind_run by (by apply index_run).
    by erewrite bind_raise by reflexivity.
  - case_bool_decide as Hlen; [done|]. injection He as <-.
    erewrite bind_run by (by apply index_run).
    erewrite bind_run by reflexivity.
    erewrite bind_raise; [reflexivity|].
    unfold SecretBox_new. by rewrite bool_decide_eq_false_2.
  - injection He as <-. erewrite bind_raise; [reflexivity|].
    unfold index. by rewrite Hk5.
Qed.

Lemma main_storable_run a d :
  has_schema d → main_storable a →
  pg_execute (main_cmd a) d = inr (append_row "iwkspc_main" (main_row a) d).
Proof.
  intros Hd ([? ?] & [? ?] & [? ?] & [? ?]). by apply main_insert_run.
Qed.

(** [add_account_to_db] with a bad folder key: when the sixth key record
    is missing, is a key pair, or holds a key that is not 32 octets long,
    the call raises IndexError, KeyError or ValueError -- but only after
    the INSERT into iwkspc_main has run.  Nothing is committed and nothing
    is rolled back: the session is left inside the transaction with the
    row of the account pending. *)
Theorem add_account_to_db_bad_key (a : account) (e : exn) (w : world) :
  folder_key_error a = Some e →
  main_storable a →
  txn_state (db w) ≠ Aborted →
  has_schema (working (db w)) →
  add_account_to_db a w
  = (inl e, World (tape w) (pos w)
                  (Connection (committed (db w))
                     (Active (append_row "iwkspc_main" (main_row a) (working (db w)))))
                  (stdout w)).
Proof.
  intros He Ha Htxn Hschema.
  by apply add_account_to_db_bad_key_run; [| |apply main_storable_run].
Qed.

(** The row a failed call left pending is committed by the next call that
    succeeds on the same connection: after [add_account_to_db] has raised
    for an account with a bad folder key, a call for a second account
    commits the rows of the second account together with the
    iwkspc_main row of the first. *)
Theorem failed_account_row_committed_later (a b : account) (e : exn)
    (key keyid : list Z) (w : world) :
  folder_key_error a = Some e →
  main_storable a →
  writable b key keyid →
  storable b key keyid (tape w) (pos w) →
  txn_state (db w) ≠ Aborted →
  has_schema (working (db w)) →
  ∃ w1 w2,
    add_account_to_db a w = (inl e, w1)
    ∧ add_account_to_db b w1 = (inr (), w2)
    ∧ committed (db w1) = committed (db w)
    ∧ committed (db w2)
      = stored b key keyid (tape w) (pos w)
          (append_row "iwkspc_main" (main_row a) (working (db w))).
Proof.
  intros He Ha Hb Hstorable Htxn Hschema.
  set (d1 := append_row "iwkspc_main" (main_row a) (working (db w))).
  set (w1 := in_txn (committed (db w)) d1 w).
  assert (has_schema d1) as Hd1 by by apply has_schema_append_row.
  pose proof (add_account_to_db_working b key keyid w1 Hb) as Hrun.
  change (tape w1) with (tape w) in Hrun. change (pos w1) with (pos w) in Hrun.
  change (working (db w1)) with d1 in Hrun.
  rewrite pg_run_account in Hrun by done.
  eexists w1, _. split; [|split; [apply Hrun; discriminate|split; reflexivity]].
  by apply add_account_to_db_bad_key_run; [| |apply main_storable_run].
Qed.

End Leftover.

Lemma example_keyless_main_storable : main_storable example_keyless.
Proof.
  unfold main_storable, quotable, dollar_quotable.
  apply (bool_decide_unpack _). vm_compute. exact I.
Defined.

Lemma add_account_to_db_bad_key_witness :
  @add_account_to_db example_sodium example_keyless example_world
  = (inl IndexError,
     World Z.of_nat 0
           (Connection fresh_schema
              (Active (append_row "iwkspc_main" (main_row example_keyless) fresh_schema)))
           []).
Proof.
  apply (@add_account_to_db_bad_key example_sodium example_keyless IndexError example_world).
  - reflexivity.
  - exact example_keyless_main_storable.
  - discriminate.
  - reflexivity.
Defined.

Lemma failed_account_row_committed_later_witness :
  ∃ w1 w2,
    @add_account_to_db example_sodium example_keyless example_world = (inl IndexError, w1)
    ∧ @add_account_to_db example_sodium example_account w1 = (inr (), w2)
    ∧ committed (db w1) = fresh_schema
    ∧ committed (db w2)
      = @stored example_sodium example_account (replicate 32 8) (lit "key-5") Z.of_nat 0
          (append_row "iwkspc_main" (main_row example_keyless) fresh_schema).
Proof.
  apply (@failed_account_row_committed_later example_sodium example_keyless example_account
           IndexError (replicate 32 8) (lit "key-5") example_world).
  - reflexivity.
  - exact example_keyless_main_storable.
  - exact example_account_writable.
  - exact example_account_storable.
  - discriminate.
  - reflexivity.
Defined.



Section Script.
Context `{Sodium} `{Diceware}.


Lemma reset_database_outcome w :
  match txn_state (db w) with
  | Aborted => reset_database w = (inl (DatabaseError InFailedSqlTransaction), w)
  | _ => reset_database w = (inr (), set_db (Connection fresh_schema Idle) w)
  end.
Proof.
  destruct (txn_state (db w)) as [|d0|] eqn:Htxn.
  3:{ unfold reset_database, dbconn_cursor. erewrite bind_run by reflexivity.
      apply bind_raise. unfold cursor_execute. by rewrite Htxn. }
  all: apply reset_database_working; by rewrite Htxn.
Qed.

Lemma iteration_outcome i w :
  match iteration i w with
  | (inl e, _) => ∃ d, e = DatabaseError d
  | (inr _, w') =>
      txn_state (db w') = Idle
      ∧ ∃ lines, stdout w' = stdout w ++ lines ∧ (26 ≤ length lines ≤ 38)%nat
  end.
Proof.
  unfold iteration. erewrite bind_run by apply generate_account_run. cbv zeta beta.
  set (a := account_at (tape w) (pos w)). set (w1 := World _ _ _ _).
  pose proof (add_account_to_db_run a _ _ w1 (account_at_writable (tape w) (pos w))) as Hadd.
  destruct (conn_run _ (db w1)) as [e|d].
  - destruct Hadd as (w' & Hadd & _). erewrite bind_raise by exact Hadd. by eexists.
  - erewrite bind_run by exact Hadd. cbv beta.
    set (w2 := World _ _ _ _).
    destruct (dump_account_at (tape w) (pos w) w2) as (lines & Hdump & Hlen).
    fold a in Hdump. rewrite Hdump. cbn [db txn_state stdout]. split; [done|]. by exists lines.
Qed.

Lemma loop_outcome (l : list Z) w :
  match for_each l iteration w with
  | (inl e, _) => ∃ d, e = DatabaseError d
  | (inr _, w') =>
      (txn_state (db w) = Idle → txn_state (db w') = Idle)
      ∧ ∃ lines, stdout w' = stdout w ++ lines
                 ∧ (26 * length l ≤ length lines ≤ 38 * length l)%nat
  end.
Proof.
  revert w. induction l as [|i l IH]; intros w.
  - cbn [for_each]. split; [done|]. exists []. split; [by rewrite app_nil_r|cbn; lia].
  - cbn [for_each]. pose proof (iteration_outcome i w) as Hi.
    destruct (iteration i w) as [[e|[]] w1] eqn:Hrun.
    + by erewrite bind_raise by exact Hrun.
    + erewrite bind_run by exact Hrun. destruct Hi as (Hidle & lines1 & Hout1 & Hlen1).
      specialize (IH w1). destruct (for_each l iteration w1) as [[e|[]] w2]; [done|].
      destruct IH as (Hidle2 & lines2 & Hout2 & Hlen2). split; [auto|].
      exists (lines1 ++ lines2). rewrite Hout2, Hout1, <- app_assoc. split; [done|].
      rewrite length_app. cbn [length]. lia.
Qed.

(** The script can only fail in the database.  [generate_account] and
    [dump_account] never raise on the way, so an exception that ends the
    script is a database error; and when the script returns, the last
    transaction is closed and it has printed the five accounts, between
    130 and 190 lines. *)
Theorem script_fails_only_in_database (w : world) :
  match script w with
  | (inl e, _) => ∃ d, e = DatabaseError d
  | (inr _, w') =>
      txn_state (db w') = Idle
      ∧ ∃ lines, stdout w' = stdout w ++ lines ∧ (130 ≤ length lines ≤ 190)%nat
  end.
Proof.
  unfold script. pose proof (reset_database_outcome w) as Hreset.
  destruct (txn_state (db w)) as [|d0|] eqn:Htxn.
  3:{ erewrite bind_raise by exact Hreset. by eexists. }
  all: erewrite bind_run by exact Hreset; cbv beta;
    pose proof (loop_outcome (range 0 5) (set_db (Connection fresh_schema Idle) w)) as Hloop;
    change (for_each (range 0 5) _) with (for_each (range 0 5) iteration);
    destruct (for_each (range 0 5) iteration _) as [[e|[]] w']; [done|];
    destruct Hloop as (Hidle & lines & Hout & Hlen);
    (split; [by apply Hidle|]); exists lines; (split; [exact Hout|]);
    change (length (range 0 5)) with 5%nat in Hlen; lia.
Qed.

(** The script starts from scratch: on a connection with no transaction
    open, neither its outcome nor the tables it leaves nor what it prints
    depends on the tables the database held before. *)
Theorem script_ignores_old_tables (d1 d2 : database) (w : world) :
  script (set_db (Connection d1 Idle) w) = script (set_db (Connection d2 Idle) w).
Proof.
  unfold script.
  erewrite bind_run by (by apply reset_database_working).
  erewrite (bind_run _ _ (set_db (Connection d2 Idle) w))
    by (by apply reset_database_working).
  reflexivity.
Qed.

End Script.

